(** * Developer-Assistant front end: run state machine, completion
    reconciler, optimistic file mutations and the debounced save buffer.

    The zustand stores are embedded as records with one function per store
    action; the asynchronous parts (the snapshot fetch started by a [done]
    event, the debounced PATCH of a file, the kill request) are embedded as
    explicit worlds: a record holding the stores, the module-level flags, the
    requests issued so far and the requests still in flight, with one
    function per synchronous stretch of code (an event delivery, a timer
    expiry, the settlement of a request).

    JavaScript strings are modelled as [string]; [null] and [undefined] are
    both [None] of an option type. *)

From stdpp Require Import gmap strings list.
From Stdlib Require Import ZArith Ascii.

Local Open Scope string_scope.
Local Open Scope list_scope.
Local Open Scope Z_scope.

(** JavaScript truthiness of a string: only the empty string is falsy. *)
Definition truthy (s : string) : bool :=
  match s with
  | EmptyString => false
  | String _ _ => true
  end.

(** [a ?? b] on optional values. *)
Definition nullish {A : Type} (a b : option A) : option A :=
  match a with
  | Some x => Some x
  | None => b
  end.

(** ** state/ProjectStore *)
Module ProjectStore.

Record ProjectFile := mkFile { name : string; content : string }.

Record Message := mkMessage { msg_id : Z; msg_content : string; fromUser : bool }.

Record Project := mkProject {
  id : string;
  title : string;
  files : list ProjectFile;
  activeFile : option string;
  messages : list Message;
  isPending : bool
}.

Record Store := mkStore { project : option Project; ready : bool }.

(** [createEmptyProject]; the identifier comes from [genId] (clock and
    random source), so it is an argument here.  The title defaults to
    ["Undefined Project"]. *)
Definition createEmptyProject (fresh : string) (t : option string) : Project :=
  mkProject fresh (default "Undefined Project" t) [] None [] false.

(** The state the store is created with. *)
Definition initialStore (fresh : string) : Store :=
  mkStore (Some (createEmptyProject fresh None)) false.

Definition getProject (s : Store) : option Project := project s.

Definition getFiles (s : Store) : list ProjectFile :=
  match project s with Some p => files p | None => [] end.

Definition setProject (p : Project) (s : Store) : Store :=
  mkStore (Some p) (ready s).

Definition setReady (r : bool) (s : Store) : Store :=
  mkStore (project s) r.

Definition resetProject (fresh : string) (t : option string) (s : Store) : Store :=
  mkStore (Some (createEmptyProject fresh t)) false.

Definition renameProject (newTitle : string) (s : Store) : Store :=
  match project s with
  | Some p =>
      mkStore (Some (mkProject (id p) newTitle (files p) (activeFile p)
                               (messages p) (isPending p))) (ready s)
  | None => s
  end.

Definition addFile (f : ProjectFile) (s : Store) : Store :=
  match project s with
  | None => s
  | Some p =>
      let nextFiles := files p ++ [f] in
      mkStore (Some (mkProject (id p) (title p) nextFiles (activeFile p)
                               (messages p) (isPending p))) (ready s)
  end.

(** [files[0]?.name ?? null] *)
Definition firstName (fs : list ProjectFile) : option string :=
  match fs with
  | f :: _ => Some (name f)
  | [] => None
  end.

(** [files.find((f) => f.name === n)] for a name that may be absent. *)
Definition findFile (n : option string) (fs : list ProjectFile) : option ProjectFile :=
  match n with
  | Some a => List.find (fun f => String.eqb (name f) a) fs
  | None => None
  end.

Definition deleteFile (fileName : string) (s : Store) : Store :=
  match project s with
  | None => s
  | Some p =>
      let nextFiles :=
        List.filter (fun f => negb (String.eqb (name f) fileName)) (files p) in
      let nextActive :=
        match activeFile p with
        | Some a => if String.eqb a fileName then firstName nextFiles else Some a
        | None => None
        end in
      mkStore (Some (mkProject (id p) (title p) nextFiles nextActive
                               (messages p) (isPending p))) (ready s)
  end.

Definition setIsPending (value : bool) (s : Store) : Store :=
  match project s with
  | Some p =>
      mkStore (Some (mkProject (id p) (title p) (files p) (activeFile p)
                               (messages p) value)) (ready s)
  | None => s
  end.

Definition setMessages (ms : list Message) (s : Store) : Store :=
  match project s with
  | Some p =>
      mkStore (Some (mkProject (id p) (title p) (files p) (activeFile p)
                               ms (isPending p))) (ready s)
  | None => s
  end.

Definition setId (i : string) (s : Store) : Store :=
  match project s with
  | Some p =>
      mkStore (Some (mkProject i (title p) (files p) (activeFile p)
                               (messages p) (isPending p))) (ready s)
  | None => s
  end.

Definition setActiveFile (fileName : option string) (s : Store) : Store :=
  match project s with
  | Some p =>
      mkStore (Some (mkProject (id p) (title p) (files p) fileName
                               (messages p) (isPending p))) (ready s)
  | None => s
  end.

Definition setFiles (fs : list ProjectFile) (s : Store) : Store :=
  match project s with
  | None => s
  | Some p =>
      let nextActive :=
        nullish (name <$> findFile (activeFile p) fs) (firstName fs) in
      mkStore (Some (mkProject (id p) (title p) fs nextActive
                               (messages p) (isPending p))) (ready s)
  end.

Definition updateFile (fileName newContent : string) (s : Store) : Store :=
  match project s with
  | None => s
  | Some p =>
      let fs :=
        List.map (fun f => if String.eqb (name f) fileName
                           then mkFile (name f) newContent else f) (files p) in
      mkStore (Some (mkProject (id p) (title p) fs (activeFile p)
                               (messages p) (isPending p))) (ready s)
  end.

(** The identifier of the last message of the log, 0 for an empty log. *)
Definition lastId (ms : list Message) : Z :=
  match last ms with
  | Some m => msg_id m
  | None => 0
  end.

Definition addMessage (c : string) (fromU : bool) (s : Store) : Store :=
  match project s with
  | None => s
  | Some p =>
      let newId := lastId (messages p) + 1 in
      mkStore (Some (mkProject (id p) (title p) (files p) (activeFile p)
                               (messages p ++ [mkMessage newId c fromU])
                               (isPending p))) (ready s)
  end.

(** The content the editor and the save buffer read for a file name:
    [project?.files.find((f) => f.name === fileName)?.content]. *)
Definition contentOf (fileName : string) (s : Store) : option string :=
  match project s with
  | Some p => content <$> findFile (Some fileName) (files p)
  | None => None
  end.

(** [project.files.some((f) => f.name === n)] *)
Definition hasFile (n : string) (fs : list ProjectFile) : bool :=
  List.existsb (fun f => String.eqb (name f) n) fs.

End ProjectStore.

(** ** types/run-events *)
Module RunEvents.

Inductive StepState := Queued | Running | Done | Failed.

(** One decoded item of the event stream, discriminated by its [t] field.
    A field that the store tests with [typeof ... === "string"] is [None]
    when it is absent or not a string; [ok] is [None] when it is absent or
    not a boolean.  Events whose tag the store does not inspect
    ([router.result], [plan.ready], unrecognized tags) are [EvOther] with
    their tag and raw text. *)
Inductive RunEvent :=
| EvStatus (step : option string) (state : StepState) (ts : option Z)
| EvLog (chunk : option string)
| EvTitleGenerated (title : option string)
| EvDone (ok : option bool) (projectId project_id : option string)
| EvOther (t : string) (raw : string).

#[global] Instance StepState_eq_dec : EqDecision StepState.
Proof. solve_decision. Defined.

End RunEvents.

(** ** services/ProjectLoader *)
Module ProjectLoader.

(** The [content] of a file of the server's answer: a string, a structured
    value (anything with [typeof] equal to ["object"], which includes
    [null]), or absent.  A structured value is represented by the text
    [JSON.stringify(value, null, 2)] gives for it. *)
Inductive RawContent :=
| Text (s : string)
| Structured (rendered : string)
| Absent.

Record RawFile := mkRawFile { raw_name : string; raw_content : RawContent }.

Record FullProjectResponse := mkResponse {
  resp_id : string;
  resp_title : string;
  resp_files : option (list RawFile);
  resp_messages : option (list ProjectStore.Message)
}.

Record NormalizedProject := mkNormalized {
  norm_id : string;
  norm_title : string;
  norm_files : list ProjectStore.ProjectFile;
  norm_messages : list ProjectStore.Message
}.

Definition normalizeFile (f : RawFile) : ProjectStore.ProjectFile :=
  let c :=
    match raw_content f with
    | Structured rendered => rendered
    | Text s => s
    | Absent => ""
    end in
  ProjectStore.mkFile (raw_name f) c.

Definition normalizeProject (data : FullProjectResponse) : NormalizedProject :=
  let fs := List.map normalizeFile (default [] (resp_files data)) in
  mkNormalized (resp_id data) (resp_title data) fs (default [] (resp_messages data)).

(** How a call of [fetchProjectDirect] settles: the parsed body of a 2xx
    answer, or a rejection carrying the message of the error. *)
Inductive FetchOutcome :=
| FetchOk (raw : FullProjectResponse)
| FetchFailed (message : string).

End ProjectLoader.

(** ** state/applyProject *)
Definition applyProjectToStore (p : ProjectLoader.NormalizedProject)
    (s : ProjectStore.Store) : ProjectStore.Store :=
  let s := ProjectStore.setFiles (ProjectLoader.norm_files p) s in
  let s := ProjectStore.setActiveFile
             (ProjectStore.firstName (ProjectLoader.norm_files p)) s in
  let s := ProjectStore.renameProject (ProjectLoader.norm_title p) s in
  let s := ProjectStore.setId (ProjectLoader.norm_id p) s in
  let s := ProjectStore.setMessages (ProjectLoader.norm_messages p) s in
  ProjectStore.setReady true s.

(** ** state/runStore *)
Module RunStore.
Import RunEvents.

Inductive RunType := generate | modify.

Record RunState := mkRun {
  runId : option string;
  running : bool;
  runType : option RunType;
  steps : gmap string StepState;
  logs : list ProjectStore.Message;
  last : option RunEvent
}.

(** What the handlers do to the outside, in order: a call of
    [fetchProjectDirect], a call of [applyProjectToStore], a line written
    with [console.error].  ([console.log] output is not recorded.) *)
Inductive Effect :=
| Fetch (projectId : string)
| Apply (p : ProjectLoader.NormalizedProject)
| ConsoleError (message : string).

(** The run store together with what its handlers share: the module-level
    flag [doneInflight], the project store, the effects so far and the
    snapshot fetches that have been started and have not settled yet (each
    one is the suspended rest of the [async] block of a [done] handler). *)
Record World := mkWorld {
  run : RunState;
  doneInflight : bool;
  store : ProjectStore.Store;
  trace : list Effect;
  inflight : list string
}.

Definition withRun (f : RunState -> RunState) (w : World) : World :=
  mkWorld (f (run w)) (doneInflight w) (store w) (trace w) (inflight w).

Definition withStore (f : ProjectStore.Store -> ProjectStore.Store) (w : World) : World :=
  mkWorld (run w) (doneInflight w) (f (store w)) (trace w) (inflight w).

Definition setDoneInflight (b : bool) (w : World) : World :=
  mkWorld (run w) b (store w) (trace w) (inflight w).

Definition emit (e : Effect) (w : World) : World :=
  mkWorld (run w) (doneInflight w) (store w) (trace w ++ [e]) (inflight w).

Definition setInflightFetches (l : list string) (w : World) : World :=
  mkWorld (run w) (doneInflight w) (store w) (trace w) l.

(** [set(initialRunState)]: zustand merges the given fields into the state,
    and [initialRunState] has no [runType] field. *)
Definition setInitial (s : RunState) : RunState :=
  mkRun None false (runType s) ∅ [] None.

Definition reset (w : World) : World :=
  withRun setInitial (setDoneInflight false w).

Definition initRun (rid : string) (rt : RunType) (w : World) : World :=
  withRun (fun _ => mkRun (Some rid) true (Some rt) {[ "router" := Queued ]} [] None)
          (setDoneInflight false w).

Definition appendLog (line : string) (fromU : bool) (s : RunState) : RunState :=
  mkRun (runId s) (running s) (runType s) (steps s)
        (logs s ++ [ProjectStore.mkMessage (Z.of_nat (length (logs s)) + 1) line fromU])
        (last s).

Definition setRunId (rid : string) (s : RunState) : RunState :=
  mkRun (Some rid) (running s) (runType s) (steps s) (logs s) (last s).


Definition getStep (step : string) (s : RunState) : option StepState :=
  steps s !! step.

Definition setStep (step : string) (st : StepState) (s : RunState) : RunState :=
  mkRun (runId s) (running s) (runType s) (<[step := st]> (steps s)) (logs s) (last s).

Definition setRunning (b : bool) (s : RunState) : RunState :=
  mkRun (runId s) b (runType s) (steps s) (logs s) (last s).

Definition setLast (e : RunEvent) (s : RunState) : RunState :=
  mkRun (runId s) (running s) (runType s) (steps s) (logs s) (Some e).

(** The [finally] block of the [async] part of the [done] handler. *)
Definition doneFinally (w : World) : World :=
  setDoneInflight false (withStore (ProjectStore.setIsPending false) w).

(** The [async] block of the [done] handler up to its first suspension:
    either it reaches [await fetchProjectDirect(projectId)], and the request
    is on its way, or it throws before, and its [catch] and [finally] run at
    once. *)
Definition doneAsyncStart (pid pid' : option string) (w : World) : World :=
  let w := withStore (ProjectStore.setIsPending true) w in
  let projectId := nullish (runId (run w)) (nullish pid pid') in
  match projectId with
  | Some p =>
      if truthy p
      then setInflightFetches (inflight w ++ [p]) (emit (Fetch p) w)
      else doneFinally (emit (ConsoleError "Missing projectId in 'done' event") w)
  | None => doneFinally (emit (ConsoleError "Missing projectId in 'done' event") w)
  end.

Definition pushEvent (e : RunEvent) (w : World) : World :=
  let w :=
    match e with
    | EvStatus (Some step) st _ => withRun (setStep step st) w
    | _ => w
    end in
  let w :=
    match e with
    | EvLog chunk => withRun (appendLog (default "" chunk) false) w
    | _ => w
    end in
  let w :=
    match e with
    | EvTitleGenerated t =>
        withStore (ProjectStore.renameProject (default "Untitled Project" t)) w
    | _ => w
    end in
  match e with
  | EvDone ok pid pid' =>
      if doneInflight w then w
      else
        let w := setDoneInflight true w in
        let w := withRun (setStep "done" Done) w in
        let w := withStore (ProjectStore.setReady true) w in
        match ok with
        | Some false =>
            let w := withStore (ProjectStore.addMessage "Pipeline failed to complete." false) w in
            setDoneInflight false w
        | _ =>
            let w := doneAsyncStart pid pid' w in
            let w := withRun (setRunning false) w in
            withRun (setLast e) w
        end
  | _ => withRun (setLast e) w
  end.

(** The rest of the [async] block, run when the oldest snapshot fetch in
    flight settles. *)
Definition settleFetch (o : ProjectLoader.FetchOutcome) (w : World) : World :=
  match inflight w with
  | [] => w
  | _ :: rest =>
      let w := setInflightFetches rest w in
      let w :=
        match o with
        | ProjectLoader.FetchOk raw =>
            let normalized := ProjectLoader.normalizeProject raw in
            withStore (applyProjectToStore normalized) (emit (Apply normalized) w)
        | ProjectLoader.FetchFailed msg => emit (ConsoleError msg) w
        end in
      doneFinally w
  end.

(** Delivery of a sequence of events, one after the other. *)
Definition pushEvents (es : list RunEvent) (w : World) : World :=
  fold_left (fun w e => pushEvent e w) es w.

Definition fetchCount (w : World) : nat :=
  length (List.filter (fun e => match e with Fetch _ => true | _ => false end) (trace w)).

Definition applyCount (w : World) : nat :=
  length (List.filter (fun e => match e with Apply _ => true | _ => false end) (trace w)).

Definition errorCount (w : World) : nat :=
  length (List.filter (fun e => match e with ConsoleError _ => true | _ => false end) (trace w)).

End RunStore.

(** ** runView *)
Module RunView.
Import RunEvents.

Inductive StepKey := Router | Planner | Implement | Test | Fix.

#[global] Instance StepKey_eq_dec : EqDecision StepKey.
Proof. solve_decision. Defined.

(** The string a [StepKey] is, as a key of the step map. *)
Definition keyName (k : StepKey) : string :=
  match k with
  | Router => "router"
  | Planner => "planner"
  | Implement => "implement"
  | Test => "test"
  | Fix => "fix"
  end.

Definition ALL_STEPS : list StepKey := [Router; Planner; Implement; Test; Fix].

Definition stepOrder (runType : option string) : list StepKey :=
  match runType with
  | Some rt => if String.eqb rt "modify" then [Planner; Implement; Test; Fix] else ALL_STEPS
  | None => ALL_STEPS
  end.

(** [Array.prototype.findIndex]: the index of the first element the
    predicate accepts, [-1] when there is none. *)
Fixpoint findIndexFrom {A : Type} (p : A -> bool) (l : list A) (i : Z) : Z :=
  match l with
  | [] => -1
  | x :: rest => if p x then i else findIndexFrom p rest (i + 1)
  end.

Definition findIndex {A : Type} (p : A -> bool) (l : list A) : Z :=
  findIndexFrom p l 0.

(** [l[i]]: [undefined] outside the array. *)
Definition at_index {A : Type} (l : list A) (i : Z) : option A :=
  if i <? 0 then None else nth_error l (Z.to_nat i).

Definition isRunning (steps : gmap string StepState) (step : StepKey) : bool :=
  bool_decide (steps !! keyName step = Some Running).

Definition isDone (steps : gmap string StepState) (step : StepKey) : bool :=
  bool_decide (steps !! keyName step = Some Done).

(** The [active] field of [readiness]. *)
Definition active (steps : gmap string StepState) (order : list StepKey) : option StepKey :=
  let runningIndex := findIndex (isRunning steps) order in
  if negb (runningIndex =? -1) then at_index order runningIndex
  else
    let firstNotDoneIndex := findIndex (fun step => negb (isDone steps step)) order in
    if negb (firstNotDoneIndex =? -1) then at_index order firstNotDoneIndex
    else at_index order (Z.of_nat (length order) - 1).

(** The [readyMap] field of [readiness]. *)
Definition readyMap (steps : gmap string StepState) (k : StepKey) : bool :=
  isDone steps k.

(** The rule as the specification words it: a running step if there is
    one, else the first step that is not done, else the last step. *)
Definition activeRule (steps : gmap string StepState) (order : list StepKey) : option StepKey :=
  match List.find (isRunning steps) order with
  | Some k => Some k
  | None =>
      match List.find (fun step => negb (isDone steps step)) order with
      | Some k => Some k
      | None => List.last (List.map Some order) None
      end
  end.

End RunView.

(** ** hooks/useKillRun *)
Module KillRun.

(** How the kill request ends: a 2xx status with a JSON body, another
    status with the text of its body, or no usable answer at all (the
    request itself is rejected, or the body does not parse). *)
Inductive KillAnswer :=
| KillOk
| KillRejected (text : string)
| KillUnreachable.

(** The world of a kill request: the run world and the kill requests
    issued so far (the run identifiers posted). *)
Record World := mkWorld {
  runWorld : RunStore.World;
  posted : list string
}.

(** [mutationFn], up to the answer of the server: without a token it throws
    before any request, so the mutation fails with no answer awaited. *)
Definition requestIssued (token : option string) : bool :=
  match token with
  | Some t => truthy t
  | None => false
  end.

(** One call of [killRun(runId)] together with the settlement of its
    mutation: [onSuccess] is the only callback the mutation has. *)
Definition killRun (token : option string) (rid : string) (answer : KillAnswer)
    (w : World) : World :=
  if requestIssued token then
    let w := mkWorld (runWorld w) (posted w ++ [rid]) in
    match answer with
    | KillOk => mkWorld (RunStore.reset (runWorld w)) (posted w)
    | KillRejected _ => w
    | KillUnreachable => w
    end
  else w.

End KillRun.

(** ** hooks/useDebouncedFileSave *)
Module DebouncedFileSave.

(** *** [stripTwBuilt]

    The call [html.replace(re, empty)] where [re] is, writing Q for the
    class of the double and the single quote,
    [/<style[^>]*\bid\s*=\s*Qtw-builtQ[^>]*>[\s\S]*?<\/style>/i],
    on ASCII text.  The pattern has one way to match at a given start: the
    tag must open with [<style], the attribute must sit before the first
    [>] that follows, and the lazy body ends at the first [</style>] after
    that [>].  The first start that matches is the one replaced. *)

Definition lower (c : ascii) : ascii :=
  let n := N_of_ascii c in
  if ((65 <=? n) && (n <=? 90))%N then ascii_of_N (n + 32) else c.

(** [\s] *)
Definition isSpace (c : ascii) : bool :=
  let n := N_of_ascii c in
  (((9 <=? n) && (n <=? 13)) || (n =? 32))%N.

(** [\w] *)
Definition isWord (c : ascii) : bool :=
  let n := N_of_ascii c in
  (((48 <=? n) && (n <=? 57)) || ((65 <=? n) && (n <=? 90))
   || ((97 <=? n) && (n <=? 122)) || (n =? 95))%N.

(** The class Q: a double or a single quote. *)
Definition isQuote (c : ascii) : bool :=
  let n := N_of_ascii c in
  ((n =? 34) || (n =? 39))%N.

Fixpoint skip (n : nat) (s : string) : string :=
  match n, s with
  | O, _ => s
  | S n', String _ s' => skip n' s'
  | S _, EmptyString => EmptyString
  end.

(** [p] is a prefix of [s], letters compared without case. *)
Fixpoint ciPrefix (p s : string) : bool :=
  match p, s with
  | EmptyString, _ => true
  | String a p', String b s' => Ascii.eqb (lower a) (lower b) && ciPrefix p' s'
  | String _ _, EmptyString => false
  end.

Fixpoint skipSpaces (s : string) : string :=
  match s with
  | String c s' => if isSpace c then skipSpaces s' else s
  | EmptyString => s
  end.

(** [id\s*=\s*Qtw-builtQ] at the start of [s]. *)
Definition attrAt (s : string) : bool :=
  if ciPrefix "id" s then
    match skipSpaces (skip 2 s) with
    | String "="%char s1 =>
        match skipSpaces s1 with
        | String q s2 =>
            isQuote q && ciPrefix "tw-built" s2 &&
            match skip 8 s2 with
            | String q' _ => isQuote q'
            | EmptyString => false
            end
        | EmptyString => false
        end
    | _ => false
    end
  else false.

(** [[^>]*\bid...] from inside the opening tag; [prev] is the character
    before [s]. *)
Fixpoint tagHasAttr (prev : ascii) (s : string) : bool :=
  match s with
  | EmptyString => false
  | String c s' =>
      if negb (isWord prev) && attrAt s then true
      else if Ascii.eqb c ">"%char then false
      else tagHasAttr c s'
  end.

(** The text after the first [>] of [s]. *)
Fixpoint afterGt (s : string) : option string :=
  match s with
  | EmptyString => None
  | String c s' => if Ascii.eqb c ">"%char then Some s' else afterGt s'
  end.

(** The text after the first [</style>] of [s]. *)
Fixpoint afterCloseStyle (s : string) : option string :=
  match s with
  | EmptyString => None
  | String _ s' => if ciPrefix "</style>" s then Some (skip 8 s) else afterCloseStyle s'
  end.

(** When the pattern matches at the start of [s]: the text after the match. *)
Definition matchAt (s : string) : option string :=
  if ciPrefix "<style" s then
    let r := skip 6 s in
    if tagHasAttr "e"%char r then
      match afterGt r with
      | Some body => afterCloseStyle body
      | None => None
      end
    else None
  else None.

Fixpoint replaceTwBuilt (s : string) : string :=
  match matchAt s with
  | Some rest => rest
  | None =>
      match s with
      | String c s' => String c (replaceTwBuilt s')
      | EmptyString => EmptyString
      end
  end.

Definition stripTwBuilt (html : string) : string :=
  if truthy html then replaceTwBuilt html else html.

(** [s.endsWith(suffix)] *)
Fixpoint endsWith (suffix s : string) : bool :=
  String.eqb s suffix ||
  match s with
  | String _ s' => endsWith suffix s'
  | EmptyString => false
  end.

(** *** The hook *)

(** The arguments of the hook that its logic reads. *)
Record Props := mkProps { projectId : string; fileName : string }.

(** One call of [patchFileContent]. *)
Record Write := mkWrite { w_project : string; w_file : string; w_content : string }.

(** The state a mounted hook works on: the project store, its three refs,
    the timers of the event loop that are armed (every timer this hook arms
    runs [mutation.mutate()]), the next timer handle, the PATCH requests
    issued so far, how many of them have not settled, and the lines written
    with [console.error]. *)
Record World := mkWorld {
  store : ProjectStore.Store;
  latestContentRef : string;
  prevContentRef : string;
  timerRef : option nat;
  armed : list nat;
  nextTimer : nat;
  written : list Write;
  unsettled : nat;
  errors : list string
}.

Definition withStore (f : ProjectStore.Store -> ProjectStore.Store) (w : World) : World :=
  mkWorld (f (store w)) (latestContentRef w) (prevContentRef w) (timerRef w)
          (armed w) (nextTimer w) (written w) (unsettled w) (errors w).

(** [if (timerRef.current) clearTimeout(timerRef.current)]; a handle that
    is not armed any more is cleared without effect. *)
Definition clearTimeout (t : option nat) (l : list nat) : list nat :=
  match t with
  | Some i => List.filter (fun j => negb (Nat.eqb j i)) l
  | None => l
  end.

(** The effect that runs when the key [projectId::fileName] changes. *)
Definition keyChanged (w : World) : World :=
  mkWorld (store w) "" "" None (clearTimeout (timerRef w) (armed w))
          (nextTimer w) (written w) (unsettled w) (errors w).

(** The body the PATCH request carries for the latest content. *)
Definition contentToSave (p : Props) (raw : string) : string :=
  if truthy (fileName p) && endsWith "index.html" (fileName p)
  then stripTwBuilt raw else raw.

(** [mutation.mutate()]: [onMutate], then [mutationFn] up to its request. *)
Definition mutate (p : Props) (w : World) : World :=
  let w := withStore (ProjectStore.setIsPending true) w in
  let req := mkWrite (projectId p) (fileName p) (contentToSave p (latestContentRef w)) in
  mkWorld (store w) (latestContentRef w) (prevContentRef w) (timerRef w)
          (armed w) (nextTimer w) (written w ++ [req]) (S (unsettled w)) (errors w).

Definition save (p : Props) (c : string) (w : World) : World :=
  if negb (truthy (projectId p)) || negb (truthy (fileName p)) then w
  else
    let prev :=
      if truthy (prevContentRef w) then prevContentRef w
      else default "" (ProjectStore.contentOf (fileName p) (store w)) in
    let st := ProjectStore.updateFile (fileName p) c (store w) in
    let t := nextTimer w in
    mkWorld st c prev (Some t) (t :: clearTimeout (timerRef w) (armed w))
            (S t) (written w) (unsettled w) (errors w).

Definition flush (p : Props) (w : World) : World :=
  if negb (truthy (projectId p)) || negb (truthy (fileName p)) then w
  else
    mutate p (mkWorld (store w) (latestContentRef w) (prevContentRef w) (timerRef w)
                      (clearTimeout (timerRef w) (armed w)) (nextTimer w)
                      (written w) (unsettled w) (errors w)).

(** The expiry of timer [t]: nothing when [t] is not armed. *)
Definition timerExpires (p : Props) (t : nat) (w : World) : World :=
  if List.existsb (Nat.eqb t) (armed w) then
    mutate p (mkWorld (store w) (latestContentRef w) (prevContentRef w) (timerRef w)
                      (clearTimeout (Some t) (armed w)) (nextTimer w)
                      (written w) (unsettled w) (errors w))
  else w.

(** The settlement of a PATCH request in flight: [onError] when it failed,
    then [onSettled]. *)
Definition settleWrite (p : Props) (ok : bool) (w : World) : World :=
  match unsettled w with
  | O => w
  | S n =>
      let w :=
        if ok then w
        else
          let w :=
            if truthy (prevContentRef w)
            then withStore (ProjectStore.updateFile (fileName p) (prevContentRef w)) w
            else w in
          mkWorld (store w) (latestContentRef w) (prevContentRef w) (timerRef w)
                  (armed w) (nextTimer w) (written w) (unsettled w)
                  (errors w ++ ["Failed to save file changes."]) in
      let w := withStore (ProjectStore.setIsPending false) w in
      mkWorld (store w) (latestContentRef w) (prevContentRef w) (timerRef w)
              (armed w) (nextTimer w) (written w) n (errors w)
  end.

(** At most the timer the hook remembers is armed. *)
Definition quiet (w : World) : Prop :=
  armed w = [] \/ (exists t, armed w = [t] /\ timerRef w = Some t).

(** A burst of updates: [save] called for each content in turn, no timer
    expiring in between. *)
Definition burst (p : Props) (cs : list string) (w : World) : World :=
  fold_left (fun w c => save p c w) cs w.

End DebouncedFileSave.

(** ** Optimistic file mutations: CodeEditor and hooks/useRenameFile *)
Module FileMutations.

(** A request to the remote store for a structural file change. *)
Inductive Request :=
| AddFileRequest (projectId name content : string)
| DeleteFileRequest (projectId name : string)
| RenameFileRequest (projectId oldName newName : string).

(** The project store, the requests issued so far, the messages shown with
    [alert], and the query keys passed to [invalidateQueries] (no query of
    the application is registered under a [project] key, so invalidating
    one issues no request). *)
Record World := mkWorld {
  store : ProjectStore.Store;
  requests : list Request;
  alerts : list string;
  invalidated : list (list string)
}.

Definition withStore (f : ProjectStore.Store -> ProjectStore.Store) (w : World) : World :=
  mkWorld (f (store w)) (requests w) (alerts w) (invalidated w).

Definition send (r : Request) (w : World) : World :=
  mkWorld (store w) (requests w ++ [r]) (alerts w) (invalidated w).

Definition alert (m : string) (w : World) : World :=
  mkWorld (store w) (requests w) (alerts w ++ [m]) (invalidated w).

Definition invalidate (queryKey : list string) (w : World) : World :=
  mkWorld (store w) (requests w) (alerts w) (invalidated w ++ [queryKey]).

Definition projectKey (projectId : string) : list string := ["project"; projectId].

Definition projectFilesKey (projectId : string) : list string :=
  ["project"; projectId; "files"].

(** *** [handleAddFile]

    The handler reads [project] and [activeFile] as the component last
    rendered them, which is the content of the store when the handler runs.
    What its [onError] callback captures is returned as a context. *)
Record AddContext := mkAddContext {
  add_project : ProjectStore.Project;
  add_activeFile : option string;
  add_newName : string
}.

(** [answer] is what [prompt] returns: [None] when it is dismissed. *)
Definition handleAddFile (answer : option string) (w : World) : World * option AddContext :=
  match ProjectStore.project (store w) with
  | None => (w, None)
  | Some project =>
      match answer with
      | None => (w, None)
      | Some newName =>
          if negb (truthy newName) then (w, None)
          else if ProjectStore.hasFile newName (ProjectStore.files project)
          then (alert "File already exists!" w, None)
          else
            let initialContent := "// New file" in
            let nextFiles :=
              ProjectStore.files project ++ [ProjectStore.mkFile newName initialContent] in
            let w := withStore (ProjectStore.setFiles nextFiles) w in
            let w := withStore (ProjectStore.setActiveFile (Some newName)) w in
            let w := send (AddFileRequest (ProjectStore.id project) newName initialContent) w in
            (w, Some (mkAddContext project (ProjectStore.activeFile project) newName))
      end
  end.

(** The [onError] callback of the add request; [message] is what the
    alert shows. *)
Definition addFileFailed (message : string) (c : AddContext) (w : World) : World :=
  let w := alert message w in
  let w := withStore (ProjectStore.setFiles (ProjectStore.files (add_project c))) w in
  match add_activeFile c with
  | Some a =>
      if truthy a && negb (String.eqb a (add_newName c))
      then withStore (ProjectStore.setActiveFile (Some a)) w
      else withStore (ProjectStore.setActiveFile
                        (ProjectStore.firstName (ProjectStore.files (add_project c)))) w
  | None =>
      withStore (ProjectStore.setActiveFile
                   (ProjectStore.firstName (ProjectStore.files (add_project c)))) w
  end.

(** The [onSuccess] callback of [useAddFile] and of [useDeleteFile]. *)
Definition mutationSucceeded (projectId : string) (w : World) : World :=
  invalidate (projectKey projectId) (invalidate (projectFilesKey projectId) w).

(** *** [handleDeleteFile] *)
Record DeleteContext := mkDeleteContext {
  prevFiles : list ProjectStore.ProjectFile;
  prevActive : option string
}.

(** [confirmed] is what [confirm] returns. *)
Definition handleDeleteFile (name : string) (confirmed : bool) (w : World)
    : World * option DeleteContext :=
  match ProjectStore.project (store w) with
  | None => (w, None)
  | Some project =>
      if negb confirmed then (w, None)
      else
        let activeFile := ProjectStore.activeFile project in
        let prevFiles := ProjectStore.files project in
        let newFiles :=
          List.filter (fun file => negb (String.eqb (ProjectStore.name file) name)) prevFiles in
        let prevActive := activeFile in
        let w := withStore (ProjectStore.setFiles newFiles) w in
        let w :=
          match activeFile with
          | Some a =>
              if String.eqb name a
              then withStore (ProjectStore.setActiveFile (ProjectStore.firstName newFiles)) w
              else w
          | None => w
          end in
        let w := send (DeleteFileRequest (ProjectStore.id project) name) w in
        (w, Some (mkDeleteContext prevFiles prevActive))
  end.

(** The [onError] callback of the delete request. *)
Definition deleteFileFailed (message : string) (c : DeleteContext) (w : World) : World :=
  let w := alert message w in
  let w := withStore (ProjectStore.setFiles (prevFiles c)) w in
  withStore (ProjectStore.setActiveFile (prevActive c)) w.

(** *** [useRenameFile] *)
Record RenameContext := mkRenameContext {
  ctx_prevFiles : list ProjectStore.ProjectFile;
  ctx_prevActive : option string
}.

(** [onMutate]: the context it returns, or the message of the error it
    throws. *)
Definition onMutate (oldName newName : string) (w : World) : World * (RenameContext + string) :=
  match ProjectStore.getProject (store w) with
  | None => (w, inr "No active project")
  | Some project =>
      if ProjectStore.hasFile newName (ProjectStore.files project)
      then (w, inr "File with the new name already exists")
      else
        let nextFiles :=
          List.map (fun f => if String.eqb (ProjectStore.name f) oldName
                             then ProjectStore.mkFile newName (ProjectStore.content f)
                             else f) (ProjectStore.files project) in
        let w := withStore (ProjectStore.setFiles nextFiles) w in
        let w :=
          match ProjectStore.activeFile project with
          | Some a =>
              if String.eqb a oldName
              then withStore (ProjectStore.setActiveFile (Some newName)) w
              else w
          | None => w
          end in
        (w, inl (mkRenameContext (ProjectStore.files project) (ProjectStore.activeFile project)))
  end.

(** [onError] then [onSettled], for a context that may be missing.  A
    project of the store always has its [activeFile] field (a name or
    [null]), so [ctx.prevActive !== undefined] holds whenever there is a
    context. *)
Definition renameFailed (projectId : string) (c : option RenameContext) (w : World) : World :=
  let w :=
    match c with
    | Some c =>
        let w := withStore (ProjectStore.setFiles (ctx_prevFiles c)) w in
        withStore (ProjectStore.setActiveFile (ctx_prevActive c)) w
    | None => w
    end in
  invalidate (projectKey projectId) w.

(** [renameFile({ oldName, newName })] up to the first suspension of its
    mutation: when [onMutate] throws, [mutationFn] is never called and the
    mutation settles as failed at once; otherwise the PATCH request is
    issued and the context waits for its answer. *)
Definition renameFile (projectId oldName newName : string) (w : World)
    : World * (RenameContext + string) :=
  match onMutate oldName newName w with
  | (w, inl c) => (send (RenameFileRequest projectId oldName newName) w, inl c)
  | (w, inr message) => (renameFailed projectId None w, inr message)
  end.

End FileMutations.

(** ** Properties the statements below are about *)
Module Spec.
Import RunEvents.

(** The names of a file collection. *)
Definition names (fs : list ProjectStore.ProjectFile) : list string :=
  List.map ProjectStore.name fs.

(** The selection of a project is absent or names one of its files. *)
Definition selectionValid (p : ProjectStore.Project) : Prop :=
  match ProjectStore.activeFile p with
  | Some a => In a (names (ProjectStore.files p))
  | None => True
  end.

(** The same for a store; a store without a project has no selection. *)
Definition storeSelectionValid (s : ProjectStore.Store) : Prop :=
  match ProjectStore.project s with
  | Some p => selectionValid p
  | None => True
  end.

(** The selection of a store. *)
Definition selection (s : ProjectStore.Store) : option string :=
  match ProjectStore.project s with
  | Some p => ProjectStore.activeFile p
  | None => None
  end.

(** The state the last status event of [es] that names [k] carries. *)
Fixpoint lastNaming (k : string) (es : list RunEvent) : option StepState :=
  match es with
  | [] => None
  | e :: rest =>
      match lastNaming k rest with
      | Some st => Some st
      | None =>
          match e with
          | EvStatus (Some step) st _ => if String.eqb step k then Some st else None
          | _ => None
          end
      end
  end.

(** A status event, from the three fields it may carry. *)
Definition statusEvent (x : option string * StepState * option Z) : RunEvent :=
  EvStatus x.1.1 x.1.2 x.2.


(** The kill request was answered with a 2xx status and a JSON body. *)
Definition killSucceeded (a : KillRun.KillAnswer) : bool :=
  match a with
  | KillRun.KillOk => true
  | _ => false
  end.

(** [ok] does not signal failure: everything but [ok === false]. *)
Definition signalsSuccess (ok : option bool) : bool :=
  match ok with
  | Some false => false
  | _ => true
  end.

End Spec.

(** ** The persisted slice of the project store *)
Module Persist.
Import ProjectStore.

(** [partialize] of the [persist] middleware: what is written to local
    storage for a state. *)
Definition partialize (s : Store) : Store :=
  match project s with
  | None => s
  | Some p =>
      let filtered :=
        List.filter (fun f => negb (String.eqb (name f) "styles/tw-built.css")) (files p) in
      mkStore (Some (mkProject (id p) (title p) filtered (activeFile p)
                               (messages p) (isPending p))) (ready s)
  end.

(** One call of an action of the store. *)
Inductive Action :=
| SetProject (p : Project)
| SetId (i : string)
| SetMessages (ms : list Message)
| SetReady (r : bool)
| ResetProject (fresh : string) (t : option string)
| RenameProject (newTitle : string)
| SetIsPending (value : bool)
| DeleteFile (fileName : string)
| SetActiveFile (fileName : option string)
| SetFiles (fs : list ProjectFile)
| UpdateFile (fileName newContent : string)
| AddFile (f : ProjectFile)
| AddMessage (c : string) (fromU : bool).

Definition perform (a : Action) (s : Store) : Store :=
  match a with
  | SetProject p => setProject p s
  | SetId i => setId i s
  | SetMessages ms => setMessages ms s
  | SetReady r => setReady r s
  | ResetProject fresh t => resetProject fresh t s
  | RenameProject t => renameProject t s
  | SetIsPending v => setIsPending v s
  | DeleteFile n => deleteFile n s
  | SetActiveFile n => setActiveFile n s
  | SetFiles fs => setFiles fs s
  | UpdateFile n c => updateFile n c s
  | AddFile f => addFile f s
  | AddMessage c u => addMessage c u s
  end.

Definition performAll (acts : list Action) (s : Store) : Store :=
  fold_left (fun s a => perform a s) acts s.


End Persist.

(** ** hooks/useAppView and hooks/appController *)
Module AppController.
Import RunStore.

Inductive AppView := ViewNew | ViewRun | ViewShell.

Definition useAppView (running ready : bool) : AppView :=
  if running then ViewRun else if ready then ViewShell else ViewNew.

(** The view for a world: [running] of the run store, [ready] of the
    project store. *)
Definition viewOf (w : World) : AppView :=
  useAppView (running (run w)) (ProjectStore.ready (store w)).

(** [fresh] is the identifier [genId] gives the new project. *)
Definition newProject (fresh : string) (t : option string) (w : World) : World :=
  let w := reset w in
  let w := withStore (ProjectStore.resetProject fresh (Some (default "New Project" t))) w in
  withRun (setRunning false) w.

Definition startGeneration (fresh : string) (rid : string) (w : World) : World :=
  let w := reset w in
  let w := withStore (ProjectStore.resetProject fresh (Some "Generating…")) w in
  let w := withRun (setRunId rid) w in
  withRun (setRunning true) w.

Definition finishGeneration (w : World) : World :=
  withRun (setRunning false) w.


(** The log of a run numbers its entries 1, 2, 3, ... from [start]. *)
Fixpoint numberedFrom (start : Z) (ms : list ProjectStore.Message) : Prop :=
  match ms with
  | [] => True
  | m :: rest => ProjectStore.msg_id m = start /\ numberedFrom (start + 1) rest
  end.

End AppController.

(** ** String helpers of the handlers *)
Module JsString.









(** [!s.includes("<")] *)
Fixpoint noLt (s : string) : bool :=
  match s with
  | EmptyString => true
  | String c s' => negb (Ascii.eqb c "<"%char) && noLt s'
  end.



End JsString.

(** ** Starting a run: newRun and chat/FeedBackInput *)
Module RunStart.
Import RunStore.

(** A POST to the run service. *)
Inductive Post :=
| CreateRun
| StartRun (runId description domain planningModel implementerModel fixerModel : string)
| ModifyRun (runId prompt : string).

Record World := mkWorld { rw : RunStore.World; posts : list Post }.








End RunStart.

(** ** The step pills of the run view *)
Module StepPills.
Import RunView.

(** [isActive] of the pill of step [key]. *)
Definition isActive (steps : gmap string RunEvents.StepState) (order : list StepKey)
    (key : StepKey) : bool :=
  bool_decide (active steps order = Some key) && negb (readyMap steps key).

(** The pills of the order that are drawn active. *)
Definition activePills (steps : gmap string RunEvents.StepState) (order : list StepKey)
    : list StepKey :=
  List.filter (isActive steps order) order.

End StepPills.

(** ** hooks/useGetProject *)
Module LoadProject.
Import ProjectLoader.

(** [onSuccess]; [data] is [None] when the answer has no body. *)
Definition onSuccess (data : option FullProjectResponse) (s : ProjectStore.Store)
    : ProjectStore.Store :=
  match data with
  | None => s
  | Some d =>
      let files :=
        List.map (fun f =>
                    let c :=
                      match raw_content f with
                      | Structured rendered => rendered
                      | Text t => t
                      | Absent => ""
                      end in
                    ProjectStore.mkFile (raw_name f) c)
                 (default [] (resp_files d)) in
      let s := ProjectStore.setFiles files s in
      let s := ProjectStore.setActiveFile (ProjectStore.firstName files) s in
      let s := ProjectStore.renameProject (resp_title d) s in
      let s := ProjectStore.setId (resp_id d) s in
      let s := ProjectStore.setMessages (default [] (resp_messages d)) s in
      ProjectStore.setReady true s
  end.

(** [onMutate] *)
Definition onMutate (s : ProjectStore.Store) : ProjectStore.Store :=
  ProjectStore.setIsPending true s.

(** How the request of [fetchProject] ends. *)
Inductive Outcome :=
| Loaded (data : option FullProjectResponse)
| LoadFailed (message : string).

(** The callbacks run when the request ends: [onSuccess] or [onError] (which
    only writes to the console), then [onSettled]. *)
Definition settle (o : Outcome) (s : ProjectStore.Store) : ProjectStore.Store :=
  let s :=
    match o with
    | Loaded data => onSuccess data s
    | LoadFailed _ => s
    end in
  ProjectStore.setIsPending false s.

(** [getProject(id)] from the call to the end of the request. *)
Definition loadProject (o : Outcome) (s : ProjectStore.Store) : ProjectStore.Store :=
  settle o (onMutate s).

End LoadProject.

(** ** hooks/useProjectHooks: useDeleteProject; hooks/useProjects *)
Module ProjectList.

Record ProjectListItem := mkItem {
  item_id : string;
  item_title : option string;
  item_updatedAt : option string
}.

(** The project store, the cached answer of the [projects] query
    ([None] when nothing is cached), the identifiers sent for deletion and
    the query keys invalidated. *)
Record World := mkWorld {
  store : ProjectStore.Store;
  cached : option (list ProjectListItem);
  deletions : list string;
  invalidated : list (list string)
}.

(** [onMutate]: the optimistic removal, and the context with the list as it
    was. *)
Definition onMutate (projectId : string) (w : World) : World * option (list ProjectListItem) :=
  let previousProjects := cached w in
  let next :=
    match cached w with
    | Some old => Some (List.filter (fun p => negb (String.eqb (item_id p) projectId)) old)
    | None => None
    end in
  (mkWorld (store w) next (deletions w) (invalidated w), previousProjects).

(** [mutate(projectId)] up to the request. *)
Definition mutate (projectId : string) (w : World) : World * option (list ProjectListItem) :=
  let '(w, ctx) := onMutate projectId w in
  (mkWorld (store w) (cached w) (deletions w ++ [projectId]) (invalidated w), ctx).

Definition onError (previousProjects : option (list ProjectListItem)) (w : World) : World :=
  match previousProjects with
  | Some l => mkWorld (store w) (Some l) (deletions w) (invalidated w)
  | None => w
  end.

(** [onSuccess]; [fresh] is the identifier of the project [resetProject]
    creates. *)
Definition onSuccess (fresh projectId : string) (w : World) : World :=
  mkWorld (ProjectStore.resetProject fresh None (store w)) (cached w) (deletions w)
          (invalidated w ++ [["project"; projectId]; ["projects"]]).

(** [retryDelay] of the [projects] query. *)
Definition retryDelay (attempt : nat) : Z :=
  Z.min (1000 * 2 ^ Z.of_nat attempt) 3000.

End ProjectList.

(** ** CodeEditor: handleRenameFile and handleSave *)
Module Editor.
Import FileMutations.




(** The arguments the editor mounts the save hook with:
    [project?.id ?? ""] and [activeFile ?? ""]. *)
Definition saveProps (s : ProjectStore.Store) : DebouncedFileSave.Props :=
  match ProjectStore.project s with
  | Some project =>
      DebouncedFileSave.mkProps (ProjectStore.id project)
                                (default "" (ProjectStore.activeFile project))
  | None => DebouncedFileSave.mkProps "" ""
  end.

(** The editor's [onChange]: the store is updated, then the buffer told. *)
Definition onChange (val : string) (w : DebouncedFileSave.World) : DebouncedFileSave.World :=
  match ProjectStore.project (DebouncedFileSave.store w) with
  | None => w
  | Some project =>
      match ProjectStore.activeFile project with
      | None => w
      | Some a =>
          if truthy a then
            DebouncedFileSave.save (saveProps (DebouncedFileSave.store w)) val
              (DebouncedFileSave.withStore (ProjectStore.updateFile a val) w)
          else w
      end
  end.

(** A run of edits in the editor, no timer expiring in between. *)
Definition edits (cs : list string) (w : DebouncedFileSave.World) : DebouncedFileSave.World :=
  fold_left (fun w c => onChange c w) cs w.

End Editor.

(** * The project store: selection and file collection *)
Section StoreSelection.
Import ProjectStore Spec.

Lemma find_by_name_some (a : string) (fs : list ProjectFile) (f : ProjectFile) :
  List.find (fun f => String.eqb (name f) a) fs = Some f ->
  name f = a /\ In a (names fs).
Proof.
  induction fs as [|g fs IH]; simpl; [discriminate|].
  destruct (String.eqb (name g) a) eqn:E.
  - intros [= ->]. apply String.eqb_eq in E. auto.
  - intros H. destruct (IH H) as [? ?]. auto.
Qed.

Lemma find_by_name_none (a : string) (fs : list ProjectFile) :
  List.find (fun f => String.eqb (name f) a) fs = None ->
  ~ In a (names fs).
Proof.
  induction fs as [|g fs IH]; simpl; [tauto|].
  destruct (String.eqb (name g) a) eqn:E; [discriminate|].
  apply String.eqb_neq in E. intros H [?|?]; [congruence|]. by apply IH.
Qed.

Lemma find_by_name_in (a : string) (fs : list ProjectFile) :
  In a (names fs) ->
  exists f, List.find (fun f => String.eqb (name f) a) fs = Some f /\ name f = a.
Proof.
  intros Hin.
  destruct (List.find (fun f => String.eqb (name f) a) fs) as [f|] eqn:E.
  - exists f. split; [done|]. by apply find_by_name_some in E as [? _].
  - by apply find_by_name_none in E.
Qed.

Lemma firstName_in (fs : list ProjectFile) (a : string) :
  firstName fs = Some a -> In a (names fs).
Proof. destruct fs as [|f fs]; simpl; [discriminate|]. intros [= <-]. by left. Qed.

Lemma names_filter_ne (n a : string) (fs : list ProjectFile) :
  In a (names (List.filter (fun f => negb (String.eqb (name f) n)) fs)) <->
  In a (names fs) /\ a <> n.
Proof.
  unfold names. rewrite !in_map_iff. split.
  - intros (f & <- & Hf). apply filter_In in Hf as [Hin Hne].
    apply negb_true_iff, String.eqb_neq in Hne. split; [|done].
    by exists f.
  - intros [(f & <- & Hin) Hne]. exists f. split; [done|].
    apply filter_In. split; [done|]. by apply negb_true_iff, String.eqb_neq.
Qed.

Lemma hasFile_true (n : string) (fs : list ProjectFile) :
  hasFile n fs = true <-> In n (names fs).
Proof.
  unfold hasFile, names. rewrite existsb_exists, in_map_iff. split.
  - intros (f & Hin & E). apply String.eqb_eq in E. by exists f.
  - intros (f & E & Hin). exists f. split; [done|]. by apply String.eqb_eq.
Qed.

(** What [setFiles] selects. *)
Lemma setFiles_selection (fs : list ProjectFile) (s : Store) (p : Project) :
  project s = Some p ->
  project (setFiles fs s) =
    Some (mkProject (id p) (title p) fs
            (nullish (name <$> findFile (activeFile p) fs) (firstName fs))
            (messages p) (isPending p)).
Proof. intros Hp. unfold setFiles. by rewrite Hp. Qed.

(** No action of the store leaves it without a project. *)
Lemma project_kept_by_actions (s : Store) :
  is_Some (project s) ->
  forall fresh t nt f n b ms i a fs c fu,
    is_Some (project (setReady b s)) /\
    is_Some (project (resetProject fresh t s)) /\
    is_Some (project (renameProject nt s)) /\
    is_Some (project (addFile f s)) /\
    is_Some (project (deleteFile n s)) /\
    is_Some (project (setIsPending b s)) /\
    is_Some (project (setMessages ms s)) /\
    is_Some (project (setId i s)) /\
    is_Some (project (setActiveFile a s)) /\
    is_Some (project (setFiles fs s)) /\
    is_Some (project (updateFile n c s)) /\
    is_Some (project (addMessage c fu s)).
Proof.
  intros [p Hp] *.
  unfold setReady, resetProject, renameProject, addFile, deleteFile, setIsPending,
    setMessages, setId, setActiveFile, setFiles, updateFile, addMessage.
  rewrite Hp. simpl. repeat split; eauto.
Qed.

(** C10 (as amended). [setFiles] on a store with a project always leaves a
    selection that is absent or names a file of the new collection: the
    previous selection when a file of that name is in the new collection,
    otherwise the first file of the new collection, otherwise none.
    [deleteFile] removes every file of the given name, keeps the selection
    unless the deleted file was selected, in which case it selects the
    first remaining file or none; the selection it leaves is valid whenever
    the selection before was valid, and always when the deleted file was
    the selected one. *)
Theorem selection_after_setFiles_and_deleteFile
    (s : Store) (p : Project) (fs : list ProjectFile) (n : string) :
  project s = Some p ->
  (exists p', project (setFiles fs s) = Some p' /\
     files p' = fs /\
     selectionValid p' /\
     (forall a, activeFile p = Some a -> In a (names fs) -> activeFile p' = Some a) /\
     ((forall a, activeFile p = Some a -> ~ In a (names fs)) ->
      activeFile p' = firstName fs)) /\
  (exists p', project (deleteFile n s) = Some p' /\
     files p' = List.filter (fun f => negb (String.eqb (name f) n)) (files p) /\
     (activeFile p <> Some n -> activeFile p' = activeFile p) /\
     (activeFile p = Some n ->
      activeFile p' = firstName (files p') /\ selectionValid p') /\
     (selectionValid p -> selectionValid p')).
Proof.
  intros Hp. split.
  - eexists. split; [by apply setFiles_selection|]. simpl.
    split; [done|]. unfold selectionValid. simpl.
    destruct (activeFile p) as [a|] eqn:Ha; simpl.
    + destruct (List.find _ fs) as [f|] eqn:Ef; simpl.
      * apply find_by_name_some in Ef as [-> Hin].
        split; [done|]. split; [by intros ? [= <-]|].
        intros Hno. by destruct (Hno a).
      * apply find_by_name_none in Ef.
        split; [|split; [by intros ? [= <-]|done]].
        destruct (firstName fs) as [b|] eqn:Eb; [|done]. by apply firstName_in.
    + split; [|split; [done|done]].
      destruct (firstName fs) as [b|] eqn:Eb; [|done]. by apply firstName_in.
  - unfold deleteFile. rewrite Hp. eexists. split; [done|]. simpl.
    split; [done|]. unfold selectionValid. simpl.
    destruct (activeFile p) as [a|] eqn:Ha; simpl.
    + destruct (String.eqb a n) eqn:E.
      * apply String.eqb_eq in E as ->.
        assert (Hv : match firstName (List.filter (fun f => negb (String.eqb (name f) n)) (files p)) with
                     | Some a => In a (names (List.filter (fun f => negb (String.eqb (name f) n)) (files p)))
                     | None => True
                     end).
        { destruct (firstName _) as [b|] eqn:Eb; [|done]. by apply firstName_in. }
        split; [done|]. split; [done|]. done.
      * apply String.eqb_neq in E.
        split; [done|]. split; [by intros [= ?]|].
        intros Hin. by apply names_filter_ne.
    + split; [done|]. split; [done|]. done.
Qed.

(** The theorem at a project with two files, the second one selected. *)
Lemma selection_after_setFiles_and_deleteFile_witness :
  let p := mkProject "p1" "T" [mkFile "a.ts" "1"; mkFile "b.ts" "2"] (Some "b.ts") [] false in
  let s := mkStore (Some p) true in
  project s = Some p /\
  (exists p', project (setFiles [mkFile "b.ts" "3"] s) = Some p' /\
     files p' = [mkFile "b.ts" "3"] /\
     selectionValid p' /\
     (forall a, activeFile p = Some a -> In a (names [mkFile "b.ts" "3"]) ->
                activeFile p' = Some a) /\
     ((forall a, activeFile p = Some a -> ~ In a (names [mkFile "b.ts" "3"])) ->
      activeFile p' = firstName [mkFile "b.ts" "3"])) /\
  (exists p', project (deleteFile "b.ts" s) = Some p' /\
     files p' = List.filter (fun f => negb (String.eqb (name f) "b.ts")) (files p) /\
     (activeFile p <> Some "b.ts" -> activeFile p' = activeFile p) /\
     (activeFile p = Some "b.ts" ->
      activeFile p' = firstName (files p') /\ selectionValid p') /\
     (selectionValid p -> selectionValid p')).
Proof.
  intros p s. split; [reflexivity|].
  apply (selection_after_setFiles_and_deleteFile s p [mkFile "b.ts" "3"] "b.ts").
  reflexivity.
Defined.

(** C10, as stated, fails for [deleteFile]: a selection that names no file
    of the collection (the store accepts any name in [setActiveFile], and
    the persisted state drops a file without touching the selection) stays
    as it is when another file is deleted. *)
Lemma deleteFile_keeps_a_dangling_selection :
  let p := mkProject "p1" "T" [mkFile "a.ts" "1"] (Some "styles/tw-built.css") [] false in
  let s := mkStore (Some p) true in
  project s = Some p /\
  project (deleteFile "a.ts" s) =
    Some (mkProject "p1" "T" [] (Some "styles/tw-built.css") [] false) /\
  ~ storeSelectionValid (deleteFile "a.ts" s).
Proof.
  intros p s. split; [reflexivity|]. split; [reflexivity|].
  unfold storeSelectionValid, selectionValid. simpl. tauto.
Qed.

End StoreSelection.

(** * Optimistic file mutations *)
Section FileMutationProps.
Import ProjectStore Spec FileMutations.

(** Whatever file is deleted, a failed delete request puts the whole store
    back as it was before the optimistic change. *)
Lemma delete_rollback_restores_store (n : string) (w : World) (p : Project) :
  project (store w) = Some p ->
  exists w1 c,
    handleDeleteFile n true w = (w1, Some c) /\
    requests w1 = requests w ++ [DeleteFileRequest (id p) n] /\
    forall message, store (deleteFileFailed message c w1) = store w.
Proof.
  intros Hp. unfold handleDeleteFile. rewrite Hp. simpl.
  eexists _, _. split; [reflexivity|].
  split.
  - destruct (activeFile p) as [a|]; [destruct (String.eqb n a)|]; reflexivity.
  - intros message. unfold deleteFileFailed, withStore, alert, send.
    destruct w as [[pr r] rq al inv]. simpl in *. subst pr.
    destruct p as [i t fs [a|] ms pe]; simpl;
      [destruct (String.eqb n a)|]; reflexivity.
Qed.

(** C7. With the files [a.ts] and [b.ts] and [a.ts] selected, deleting
    [a.ts] leaves [b.ts] alone and selected at once, and issues the delete
    request; when that request fails, the collection is again [a.ts],
    [b.ts] and the selection is again [a.ts], in one step of the error
    callback: the whole store is the one from before the deletion. *)
Theorem delete_selected_file_then_rollback
    (ca cb pid t : string) (ms : list Message) (pend rdy : bool)
    (rs : list Request) (al : list string) (inv : list (list string)) :
  let a := mkFile "a.ts" ca in
  let b := mkFile "b.ts" cb in
  let w0 := mkWorld (mkStore (Some (mkProject pid t [a; b] (Some "a.ts") ms pend)) rdy)
                    rs al inv in
  exists w1 c,
    handleDeleteFile "a.ts" true w0 = (w1, Some c) /\
    getFiles (store w1) = [b] /\
    selection (store w1) = Some "b.ts" /\
    requests w1 = rs ++ [DeleteFileRequest pid "a.ts"] /\
    forall message,
      let w2 := deleteFileFailed message c w1 in
      getFiles (store w2) = [a; b] /\
      selection (store w2) = Some "a.ts" /\
      store w2 = store w0 /\
      requests w2 = requests w1.
Proof.
  intros a b w0. eexists _, _. split; [reflexivity|].
  repeat split.
Qed.

(** C8. With a project in the store: adding a file under a name the
    collection already has changes neither the store nor the list of
    requests issued (the handler only alerts); a rename to a name the
    collection already has fails in [onMutate] with the store and the list
    of requests issued unchanged; and a rename of the selected file to a
    name the collection does not have yet renames the file, issues the
    rename request and leaves the new name selected. *)
Theorem add_and_rename_preconditions (w : World) (p : Project) :
  project (store w) = Some p ->
  (forall newName,
      hasFile newName (files p) = true ->
      snd (handleAddFile (Some newName) w) = None /\
      store (fst (handleAddFile (Some newName) w)) = store w /\
      requests (fst (handleAddFile (Some newName) w)) = requests w) /\
  (forall projectId oldName newName,
      hasFile newName (files p) = true ->
      snd (renameFile projectId oldName newName w) =
        inr "File with the new name already exists" /\
      store (fst (renameFile projectId oldName newName w)) = store w /\
      requests (fst (renameFile projectId oldName newName w)) = requests w) /\
  (forall projectId oldName newName,
      hasFile newName (files p) = false ->
      activeFile p = Some oldName ->
      snd (renameFile projectId oldName newName w) = inl (mkRenameContext (files p) (Some oldName)) /\
      selection (store (fst (renameFile projectId oldName newName w))) = Some newName /\
      getFiles (store (fst (renameFile projectId oldName newName w))) =
        List.map (fun f => if String.eqb (name f) oldName
                           then mkFile newName (content f) else f) (files p) /\
      requests (fst (renameFile projectId oldName newName w)) =
        requests w ++ [RenameFileRequest projectId oldName newName]).
Proof.
  intros Hp. repeat split.
  - unfold handleAddFile. rewrite Hp, H. by destruct (truthy newName).
  - unfold handleAddFile. rewrite Hp, H. by destruct (truthy newName).
  - unfold handleAddFile. rewrite Hp, H. by destruct (truthy newName).
  - unfold renameFile, onMutate, getProject. by rewrite Hp, H.
  - unfold renameFile, onMutate, getProject. by rewrite Hp, H.
  - unfold renameFile, onMutate, getProject. by rewrite Hp, H.
  - unfold renameFile, onMutate, getProject. rewrite Hp, H, H0.
    by rewrite String.eqb_refl.
  - unfold renameFile, onMutate, getProject. rewrite Hp, H, H0.
    rewrite String.eqb_refl. simpl. unfold selection, setActiveFile, setFiles.
    by rewrite Hp.
  - unfold renameFile, onMutate, getProject. rewrite Hp, H, H0.
    rewrite String.eqb_refl. simpl. unfold getFiles, setActiveFile, setFiles.
    by rewrite Hp.
  - unfold renameFile, onMutate, getProject. rewrite Hp, H, H0.
    by rewrite String.eqb_refl.
Qed.

(** The theorem at a project with the files [a.ts] and [b.ts], [a.ts]
    selected: adding [b.ts], renaming [a.ts] to [b.ts], renaming [a.ts] to
    [c.ts]. *)
Lemma add_and_rename_preconditions_witness :
  let p := mkProject "p1" "T" [mkFile "a.ts" "1"; mkFile "b.ts" "2"] (Some "a.ts") [] false in
  let w := mkWorld (mkStore (Some p) true) [] [] [] in
  project (store w) = Some p /\
  hasFile "b.ts" (files p) = true /\
  hasFile "c.ts" (files p) = false /\
  store (fst (handleAddFile (Some "b.ts") w)) = store w /\
  requests (fst (handleAddFile (Some "b.ts") w)) = [] /\
  store (fst (renameFile "p1" "a.ts" "b.ts" w)) = store w /\
  requests (fst (renameFile "p1" "a.ts" "b.ts" w)) = [] /\
  selection (store (fst (renameFile "p1" "a.ts" "c.ts" w))) = Some "c.ts" /\
  requests (fst (renameFile "p1" "a.ts" "c.ts" w)) = [RenameFileRequest "p1" "a.ts" "c.ts"].
Proof.
  intros p w.
  destruct (add_and_rename_preconditions w p eq_refl) as (Hadd & Hren & Hfollow).
  destruct (Hadd "b.ts" eq_refl) as (_ & Hs1 & Hr1).
  destruct (Hren "p1" "a.ts" "b.ts" eq_refl) as (_ & Hs2 & Hr2).
  destruct (Hfollow "p1" "a.ts" "c.ts" eq_refl eq_refl) as (_ & Hs3 & _ & Hr3).
  repeat split; assumption.
Defined.

End FileMutationProps.

(** * The run state machine and the completion reconciler *)
Section RunStoreProps.
Import RunEvents ProjectLoader RunStore Spec.

Lemma pushEvents_cons (e : RunEvent) (es : list RunEvent) (w : World) :
  pushEvents (e :: es) w = pushEvents es (pushEvent e w).
Proof. reflexivity. Qed.

(** What a status event does to the step map. *)
Lemma pushEvent_status_steps (step : option string) (st : StepState) (ts : option Z)
    (w : World) :
  steps (run (pushEvent (EvStatus step st ts) w)) =
    match step with
    | Some k => <[k := st]> (steps (run w))
    | None => steps (run w)
    end.
Proof. by destruct step. Qed.

(** C2. After any finite sequence of status events, the step map gives
    each key the state of the last event of the sequence that names it,
    whatever the timestamps of the events are, and gives a key that no
    event names what it gave before. *)
Theorem status_events_last_wins
    (l : list (option string * StepState * option Z)) (w : World) (k : string) :
  steps (run (pushEvents (List.map statusEvent l) w)) !! k =
    match lastNaming k (List.map statusEvent l) with
    | Some st => Some st
    | None => steps (run w) !! k
    end.
Proof.
  revert w. induction l as [|[[step st] ts] l IH]; intros w; [reflexivity|].
  cbn [List.map]. rewrite pushEvents_cons, IH. cbn [lastNaming].
  destruct (lastNaming k (List.map statusEvent l)) as [st'|]; [reflexivity|].
  unfold statusEvent at 1 2. cbn [fst snd].
  rewrite pushEvent_status_steps.
  destruct step as [step|]; [|reflexivity].
  destruct (String.eqb step k) eqn:E.
  - apply String.eqb_eq in E as ->. by rewrite lookup_insert_eq.
  - apply String.eqb_neq in E. by rewrite lookup_insert_ne.
Qed.



Lemma setIsPending_twice (a b : bool) (s : ProjectStore.Store) :
  ProjectStore.setIsPending a (ProjectStore.setIsPending b s) = ProjectStore.setIsPending a s.
Proof. by destruct s as [[p|] r]. Qed.

(** The world right after a successful [done] event gets past the guard
    with a project identifier to fetch. *)
Lemma pushEvent_done_starts_fetch (w : World) (ok : option bool)
    (pid pid' : option string) (target : string) :
  doneInflight w = false ->
  signalsSuccess ok = true ->
  nullish (runId (run w)) (nullish pid pid') = Some target ->
  truthy target = true ->
  pushEvent (EvDone ok pid pid') w =
    mkWorld (setLast (EvDone ok pid pid') (setRunning false (setStep "done" Done (run w))))
            true
            (ProjectStore.setIsPending true (ProjectStore.setReady true (store w)))
            (trace w ++ [Fetch target])
            (inflight w ++ [target]).
Proof.
  intros Hg Hok Hid Ht. unfold pushEvent. rewrite Hg.
  assert (Hbranch : forall (A : Type) (x y : A),
             match ok with Some false => x | _ => y end = y).
  { intros. by destruct ok as [[]|]. }
  rewrite Hbranch. unfold doneAsyncStart. cbn. rewrite Hid, Ht. reflexivity.
Qed.

Lemma count_app_one (f : Effect -> bool) (l : list Effect) (e : Effect) :
  length (List.filter f (l ++ [e])) =
    (length (List.filter f l) + (if f e then 1 else 0))%nat.
Proof. rewrite List.filter_app, length_app. simpl. by destruct (f e). Qed.



End RunStoreProps.

(** * The completion reconciler when the run or the fetch fails *)
Section ReconcilerFailures.
Import RunEvents ProjectLoader RunStore Spec.

(** C4 (as amended). When the snapshot fetch started by a successful
    [done] event is rejected, the error is written with [console.error],
    the guard is cleared, no further fetch is started, and the project of
    the mirror keeps its identifier, title, files, selection and messages;
    the [ready] flag, set on entry to the handler before the fetch, stays
    set, and the pending flag ends cleared. *)
Theorem fetch_failure_keeps_project
    (w : World) (ok : option bool) (pid pid' : option string) (target message : string) :
  doneInflight w = false ->
  inflight w = [] ->
  signalsSuccess ok = true ->
  nullish (runId (run w)) (nullish pid pid') = Some target ->
  truthy target = true ->
  let w2 := settleFetch (FetchFailed message) (pushEvent (EvDone ok pid pid') w) in
  trace w2 = trace w ++ [Fetch target; ConsoleError message] /\
  fetchCount w2 = (fetchCount w + 1)%nat /\
  applyCount w2 = applyCount w /\
  errorCount w2 = (errorCount w + 1)%nat /\
  doneInflight w2 = false /\
  inflight w2 = [] /\
  store w2 = ProjectStore.setIsPending false (ProjectStore.setReady true (store w)) /\
  ProjectStore.ready (store w2) = true /\
  (forall p, ProjectStore.project (store w) = Some p ->
     ProjectStore.project (store w2) =
       Some (ProjectStore.mkProject (ProjectStore.id p) (ProjectStore.title p)
               (ProjectStore.files p) (ProjectStore.activeFile p)
               (ProjectStore.messages p) false)).
Proof.
  intros Hg Hin Hok Hid Ht w2. subst w2.
  rewrite (pushEvent_done_starts_fetch w ok pid pid' target) by done.
  rewrite Hin. unfold settleFetch, fetchCount, applyCount, errorCount. cbn.
  rewrite !count_app_one, !setIsPending_twice. cbn.
  split; [by rewrite <- app_assoc|]. split; [lia|]. split; [lia|]. split; [lia|].
  split; [done|]. split; [done|]. split; [done|].
  destruct (store w) as [[q|] r]; cbn; split; try done.
  by intros p [= ->].
Qed.

(** The theorem for a run [p1] generated into a fresh project: the server
    answers the snapshot request with an error. *)
Lemma fetch_failure_keeps_project_witness :
  let w := mkWorld (mkRun (Some "p1") true (Some generate) ∅ [] None) false
                   (ProjectStore.initialStore "x0") [] [] in
  let w2 := settleFetch (FetchFailed "Failed to fetch project: HTTP 500")
              (pushEvent (EvDone (Some true) None None) w) in
  doneInflight w = false /\
  inflight w = [] /\
  trace w2 = [Fetch "p1"; ConsoleError "Failed to fetch project: HTTP 500"] /\
  doneInflight w2 = false /\
  inflight w2 = [] /\
  ProjectStore.project (store w2) = ProjectStore.project (store w).
Proof.
  intros w w2.
  destruct (fetch_failure_keeps_project w (Some true) None None "p1"
              "Failed to fetch project: HTTP 500" eq_refl eq_refl eq_refl eq_refl eq_refl)
    as (Ht & _ & _ & _ & Hg & Hi & _ & _ & Hp).
  split; [reflexivity|]. split; [reflexivity|].
  split; [exact Ht|]. split; [exact Hg|]. split; [exact Hi|].
  exact (Hp _ eq_refl).
Defined.

(** C4, as stated, fails: the mirror is not left at its pre-terminal
    state, because the handler sets [ready] before it starts the fetch. *)
Lemma fetch_failure_changes_ready_flag :
  let w := mkWorld (mkRun (Some "p1") true (Some generate) ∅ [] None) false
                   (ProjectStore.initialStore "x0") [] [] in
  let w2 := settleFetch (FetchFailed "Failed to fetch project: HTTP 500")
              (pushEvent (EvDone (Some true) None None) w) in
  ProjectStore.ready (store w) = false /\
  ProjectStore.ready (store w2) = true /\
  store w2 <> store w.
Proof.
  intros w w2. split; [reflexivity|]. split; [reflexivity|].
  intros H. apply (f_equal ProjectStore.ready) in H. discriminate H.
Qed.

(** C5. A [done] event with [ok] false that finds the guard clear starts
    no snapshot fetch, appends one entry, the failure line, to the messages
    of the project, appends nothing to the log of the run, and leaves the
    guard clear. *)
Theorem failed_done_logs_once_without_fetch
    (w : World) (pid pid' : option string) (p : ProjectStore.Project) :
  doneInflight w = false ->
  ProjectStore.project (store w) = Some p ->
  let w1 := pushEvent (EvDone (Some false) pid pid') w in
  trace w1 = trace w /\
  fetchCount w1 = fetchCount w /\
  inflight w1 = inflight w /\
  (exists p1, ProjectStore.project (store w1) = Some p1 /\
     ProjectStore.messages p1 =
       ProjectStore.messages p ++
         [ProjectStore.mkMessage (ProjectStore.lastId (ProjectStore.messages p) + 1)
            "Pipeline failed to complete." false] /\
     length (ProjectStore.messages p1) = S (length (ProjectStore.messages p))) /\
  logs (run w1) = logs (run w) /\
  doneInflight w1 = false.
Proof.
  intros Hg Hp w1. subst w1. unfold pushEvent. rewrite Hg. cbn.
  unfold ProjectStore.addMessage, ProjectStore.setReady. cbn. rewrite Hp. cbn.
  repeat split. eexists. split; [reflexivity|]. cbn. split; [reflexivity|].
  rewrite length_app. cbn. lia.
Qed.

(** The theorem for a run whose project already has one message. *)
Lemma failed_done_logs_once_without_fetch_witness :
  let p := ProjectStore.mkProject "p1" "Shop" [] None
             [ProjectStore.mkMessage 1 "make a shop" true] false in
  let w := mkWorld (mkRun (Some "p1") true (Some generate) ∅ [] None) false
                   (ProjectStore.mkStore (Some p) false) [] [] in
  let w1 := pushEvent (EvDone (Some false) None None) w in
  doneInflight w = false /\
  ProjectStore.project (store w) = Some p /\
  trace w1 = [] /\
  inflight w1 = [] /\
  (exists p1, ProjectStore.project (store w1) = Some p1 /\
     ProjectStore.messages p1 =
       [ProjectStore.mkMessage 1 "make a shop" true;
        ProjectStore.mkMessage 2 "Pipeline failed to complete." false]) /\
  doneInflight w1 = false.
Proof.
  intros p w w1.
  destruct (failed_done_logs_once_without_fetch w None None p eq_refl eq_refl)
    as (Ht & _ & Hi & (p1 & Hp1 & Hm & _) & _ & Hg).
  repeat split; try assumption. exists p1. split; assumption.
Defined.

End ReconcilerFailures.

(** * The active step of the run view *)
Section ActiveStep.
Import RunEvents RunView.

Lemma findIndexFrom_found {A : Type} (p : A -> bool) (l : list A) (i : Z) (x : A) :
  List.find p l = Some x ->
  exists n : nat, findIndexFrom p l i = i + Z.of_nat n /\ nth_error l n = Some x.
Proof.
  revert i. induction l as [|y l IH]; intros i; simpl; [discriminate|].
  destruct (p y).
  - intros [= ->]. exists O. split; [lia|reflexivity].
  - intros H. destruct (IH (i + 1) H) as (n & Hn & Hx).
    exists (S n). split; [lia|exact Hx].
Qed.

Lemma findIndexFrom_none {A : Type} (p : A -> bool) (l : list A) (i : Z) :
  List.find p l = None -> findIndexFrom p l i = -1.
Proof.
  revert i. induction l as [|y l IH]; intros i; simpl; [reflexivity|].
  destruct (p y); [discriminate|]. apply IH.
Qed.

Lemma at_index_of_nat {A : Type} (l : list A) (n : nat) :
  at_index l (0 + Z.of_nat n) = nth_error l n.
Proof.
  unfold at_index. destruct (Z.ltb_spec (0 + Z.of_nat n) 0); [lia|].
  by rewrite Z.add_0_l, Nat2Z.id.
Qed.

Lemma at_index_last {A : Type} (l : list A) :
  at_index l (Z.of_nat (length l) - 1) = List.last (List.map Some l) None.
Proof.
  destruct l as [|x l]; [reflexivity|].
  unfold at_index. cbn [length].
  destruct (Z.ltb_spec (Z.of_nat (S (length l)) - 1) 0) as [Hlt|_]; [lia|].
  replace (Z.to_nat (Z.of_nat (S (length l)) - 1)) with (length l) by lia.
  revert x. induction l as [|y l IH]; intros x; [reflexivity|].
  cbn [length nth_error]. rewrite IH. reflexivity.
Qed.

(** The index arithmetic of [active] computes the rule. *)
Lemma active_is_rule (steps : gmap string StepState) (order : list StepKey) :
  active steps order = activeRule steps order.
Proof.
  unfold active, activeRule, findIndex.
  destruct (List.find (isRunning steps) order) as [k|] eqn:Er.
  - destruct (findIndexFrom_found _ _ 0 _ Er) as (n & -> & Hn).
    destruct (Z.eqb_spec (0 + Z.of_nat n) (-1)); [lia|]. cbn [negb].
    by rewrite at_index_of_nat.
  - rewrite (findIndexFrom_none _ _ 0 Er). cbn [Z.eqb negb].
    replace (-1 =? -1) with true by reflexivity. cbn [negb].
    destruct (List.find (fun step => negb (isDone steps step)) order) as [k|] eqn:Ed.
    + destruct (findIndexFrom_found _ _ 0 _ Ed) as (n & -> & Hn).
      destruct (Z.eqb_spec (0 + Z.of_nat n) (-1)); [lia|]. cbn [negb].
      by rewrite at_index_of_nat.
    + rewrite (findIndexFrom_none _ _ 0 Ed).
      replace (-1 =? -1) with true by reflexivity. cbn [negb].
      apply at_index_last.
Qed.



(** The scenario of the specification: [implement] set running and later
    done while [test] is still queued makes [test] the active step. *)
Example active_after_implement_done :
  let w0 := RunStore.mkWorld
              (RunStore.mkRun (Some "r1") true (Some RunStore.generate)
                 (<["router" := Done]> (<["planner" := Done]> (<["test" := Queued]> ∅)))
                 [] None)
              false (ProjectStore.initialStore "x0") [] [] in
  let w := RunStore.pushEvents
             [EvStatus (Some "implement") Running None;
              EvStatus (Some "implement") Done None] w0 in
  RunStore.steps (RunStore.run w) !! "implement" = Some Done /\
  active (RunStore.steps (RunStore.run w)) (stepOrder None) = Some Test.
Proof. split; vm_compute; reflexivity. Qed.

End ActiveStep.

(** * Cancelling a run *)
Section KillRunProps.
Import KillRun Spec.

(** C9 (as amended). A cancel-run request posts the kill call once when a
    token is available and not at all otherwise; the local run state is
    reset when that call succeeds, and is left as it was when the call
    fails or is never made. *)
Theorem kill_resets_on_success_only
    (token : option string) (rid : string) (answer : KillAnswer) (w : World) :
  let w' := killRun token rid answer w in
  posted w' = (if requestIssued token then posted w ++ [rid] else posted w) /\
  runWorld w' =
    (if requestIssued token && killSucceeded answer
     then RunStore.reset (runWorld w) else runWorld w).
Proof.
  unfold killRun. destruct (requestIssued token); [|done].
  destruct answer; done.
Qed.

(** C9, as stated, fails: when the server rejects the kill call, the run
    is still tracked as running, with its identifier and steps. *)
Lemma rejected_kill_leaves_run_state :
  let r := RunStore.mkRun (Some "r1") true (Some RunStore.generate)
             {[ "router" := RunEvents.Running ]} [] None in
  let w := mkWorld (RunStore.mkWorld r false (ProjectStore.initialStore "x0") [] []) [] in
  let w' := killRun (Some "token") "r1" (KillRejected "Internal Server Error") w in
  posted w' = ["r1"] /\
  RunStore.run (runWorld w') = r /\
  RunStore.running (RunStore.run (runWorld w')) = true /\
  RunStore.running (RunStore.run (RunStore.reset (runWorld w))) = false /\
  runWorld w' <> RunStore.reset (runWorld w).
Proof.
  intros r w w'. repeat split.
  intros H. apply (f_equal (fun x => RunStore.running (RunStore.run x))) in H.
  discriminate H.
Qed.

End KillRunProps.

(** * The debounced save buffer *)
Section DebouncedSaveProps.
Import ProjectStore DebouncedFileSave.

Variable p : Props.
Hypothesis projectId_given : truthy (projectId p) = true.
Hypothesis fileName_given : truthy (fileName p) = true.

Lemma save_unfold (c : string) (w : World) :
  save p c w =
    mkWorld (updateFile (fileName p) c (store w)) c
      (if truthy (prevContentRef w) then prevContentRef w
       else default "" (contentOf (fileName p) (store w)))
      (Some (nextTimer w))
      (nextTimer w :: clearTimeout (timerRef w) (armed w))
      (S (nextTimer w)) (written w) (unsettled w) (errors w).
Proof. unfold save. by rewrite projectId_given, fileName_given. Qed.

Lemma clearTimeout_quiet (w : World) :
  quiet w -> clearTimeout (timerRef w) (armed w) = [].
Proof.
  intros [Ha|(t & Ha & Ht)]; rewrite Ha.
  - by destruct (timerRef w).
  - rewrite Ht. cbn. by rewrite Nat.eqb_refl.
Qed.

(** One update leaves exactly its own timer armed. *)
Lemma save_rearms (c : string) (w : World) :
  quiet w ->
  armed (save p c w) = [nextTimer w] /\
  timerRef (save p c w) = Some (nextTimer w) /\
  nextTimer (save p c w) = S (nextTimer w) /\
  latestContentRef (save p c w) = c /\
  written (save p c w) = written w /\
  unsettled (save p c w) = unsettled w /\
  errors (save p c w) = errors w /\
  quiet (save p c w).
Proof.
  intros Hq. rewrite save_unfold. cbn. rewrite (clearTimeout_quiet w Hq).
  repeat split. right. by exists (nextTimer w).
Qed.

Lemma burst_snoc (cs : list string) (c : string) (w : World) :
  burst p (cs ++ [c]) w = save p c (burst p cs w).
Proof. unfold burst. by rewrite fold_left_app. Qed.

(** A burst keeps the buffer quiet, issues nothing and uses one timer
    handle per update. *)
Lemma burst_quiet (cs : list string) (w : World) :
  quiet w ->
  quiet (burst p cs w) /\
  nextTimer (burst p cs w) = (nextTimer w + length cs)%nat /\
  written (burst p cs w) = written w /\
  unsettled (burst p cs w) = unsettled w /\
  errors (burst p cs w) = errors w.
Proof.
  induction cs as [|c cs IH] using rev_ind; intros Hq.
  - cbn. repeat split; [done|lia].
  - destruct (IH Hq) as (Hq' & Hn & Hw & Hu & He).
    rewrite burst_snoc.
    destruct (save_rearms c _ Hq') as (_ & _ & Hn' & _ & Hw' & Hu' & He' & Hq'').
    rewrite Hn', Hw', Hu', He', Hn, Hw, Hu, He, length_app. cbn.
    repeat split; [done|lia].
Qed.

Lemma contentOf_updateFile (n c x : string) (s : Store) :
  contentOf n s = Some x -> contentOf n (updateFile n c s) = Some c.
Proof.
  unfold contentOf, updateFile. destruct (project s) as [q|]; [|discriminate].
  cbn. induction (files q) as [|f fs IH]; cbn; [discriminate|].
  destruct (String.eqb (name f) n) eqn:E; cbn.
  - by rewrite E.
  - by rewrite E.
Qed.

Lemma contentOf_setIsPending (n : string) (b : bool) (s : Store) :
  contentOf n (setIsPending b s) = contentOf n s.
Proof. by destruct s as [[q|] r]. Qed.

(** A later content for the same file replaces an earlier one. *)
Lemma updateFile_twice (n c c' : string) (s : Store) :
  updateFile n c' (updateFile n c s) = updateFile n c' s.
Proof.
  destruct s as [[q|] r]; [|reflexivity]. cbn. do 3 f_equal.
  rewrite List.map_map. apply List.map_ext. intros f.
  destruct (String.eqb (name f) n) eqn:E; cbn; by rewrite E.
Qed.

Lemma updateFile_setIsPending (n c : string) (b : bool) (s : Store) :
  updateFile n c (setIsPending b s) = setIsPending b (updateFile n c s).
Proof. by destruct s as [[q|] r]. Qed.

(** Once a snapshot is held, updates keep it. *)
Lemma burst_keeps_snapshot (cs : list string) (w : World) :
  truthy (prevContentRef w) = true ->
  prevContentRef (burst p cs w) = prevContentRef w.
Proof.
  induction cs as [|c cs IH] using rev_ind; intros Ht; [reflexivity|].
  rewrite burst_snoc, save_unfold. cbn. rewrite (IH Ht), Ht. reflexivity.
Qed.

(** The store after a burst: the last content written over the file. *)
Lemma burst_store (cs : list string) (c : string) (w : World) :
  store (burst p (cs ++ [c]) w) = updateFile (fileName p) c (store w).
Proof.
  revert w. induction cs as [|c1 cs IH]; intros w.
  - cbn. by rewrite save_unfold.
  - change (burst p ((c1 :: cs) ++ [c]) w) with (burst p (cs ++ [c]) (save p c1 w)).
    rewrite IH, save_unfold. cbn. apply updateFile_twice.
Qed.

(** The first update of a burst that starts without a snapshot takes the
    content the store holds for the file. *)
Lemma burst_takes_snapshot (cs : list string) (c c0 : string) (w : World) :
  prevContentRef w = "" ->
  contentOf (fileName p) (store w) = Some c0 ->
  truthy c0 = true ->
  prevContentRef (burst p (cs ++ [c]) w) = c0.
Proof.
  intros Hprev Hc0 Ht.
  assert (H1 : forall c1, prevContentRef (save p c1 w) = c0).
  { intros c1. rewrite save_unfold. cbn. by rewrite Hprev, Hc0. }
  destruct cs as [|c1 cs]; [apply H1|].
  change (burst p ((c1 :: cs) ++ [c]) w) with (burst p (cs ++ [c]) (save p c1 w)).
  rewrite burst_keeps_snapshot; rewrite H1; done.
Qed.

(** The hook keeps at most the timer it remembers armed. *)
Lemma quiet_kept (w : World) :
  quiet w ->
  (forall c, quiet (save p c w)) /\
  quiet (flush p w) /\
  (forall t, quiet (timerExpires p t w)) /\
  (forall ok, quiet (settleWrite p ok w)) /\
  quiet (keyChanged w).
Proof.
  intros Hq.
  assert (Hc : clearTimeout (timerRef w) (armed w) = []) by (by apply clearTimeout_quiet).
  split; [intros c; by apply save_rearms|].
  split.
  { unfold flush. rewrite projectId_given, fileName_given. cbn. rewrite Hc. by left. }
  split.
  { intros t. unfold timerExpires.
    destruct (List.existsb (Nat.eqb t) (armed w)) eqn:E; [|done].
    left. cbn. destruct Hq as [Ha|(t0 & Ha & Ht0)]; rewrite Ha in *; [done|].
    cbn in *. rewrite orb_false_r in E. apply Nat.eqb_eq in E as ->.
    by rewrite Nat.eqb_refl. }
  split.
  { intros ok. unfold settleWrite. destruct (unsettled w); [done|].
    destruct ok; [exact Hq|]. destruct (truthy (prevContentRef w)); exact Hq. }
  left. cbn. exact Hc.
Qed.

(** C6 (as amended). For a hook with a project identifier and a file
    name, in a state where at most the timer the hook remembers is armed, a
    burst of updates leaves one timer armed, the one of the last update; its
    expiry issues one PATCH request and leaves no timer armed.  The request
    carries the content of the last update, passed through [stripTwBuilt]
    when the file name ends in [index.html].  When the burst starts with no
    snapshot held and the
    store holds a non-empty content for the file, the failure of that
    request puts this content back for the file, leaves the other files as
    they were and writes one error line. *)
Theorem burst_issues_one_write (cs : list string) (c : string) (w : World) :
  quiet w ->
  let w1 := burst p (cs ++ [c]) w in
  let t := (nextTimer w + length cs)%nat in
  let w2 := timerExpires p t w1 in
  armed w1 = [t] /\
  written w1 = written w /\
  latestContentRef w1 = c /\
  store w1 = updateFile (fileName p) c (store w) /\
  (forall t', t' <> t -> timerExpires p t' w1 = w1) /\
  written w2 = written w ++ [mkWrite (projectId p) (fileName p) (contentToSave p c)] /\
  armed w2 = [] /\
  (endsWith "index.html" (fileName p) = false -> contentToSave p c = c) /\
  (endsWith "index.html" (fileName p) = true -> contentToSave p c = stripTwBuilt c) /\
  (forall c0,
      prevContentRef w = "" ->
      contentOf (fileName p) (store w) = Some c0 ->
      truthy c0 = true ->
      let w3 := settleWrite p false w2 in
      contentOf (fileName p) (store w3) = Some c0 /\
      store w3 = setIsPending false (updateFile (fileName p) c0 (store w)) /\
      written w3 = written w2 /\
      errors w3 = errors w ++ ["Failed to save file changes."]).
Proof.
  intros Hq w1 t w2.
  destruct (burst_quiet cs w Hq) as (Hq1 & Hn1 & Hw1 & Hu1 & He1).
  assert (E1 : w1 = save p c (burst p cs w)) by apply burst_snoc.
  destruct (save_rearms c _ Hq1) as (Ar & Tr & Nx & La & Wr & Un & Er & _).
  rewrite <- E1, ?Hn1, ?Hw1, ?Hu1, ?He1 in *. fold t in Ar, Tr.
  assert (Hstore : store w1 = updateFile (fileName p) c (store w)) by apply burst_store.
  assert (E2 : w2 = mutate p (mkWorld (store w1) (latestContentRef w1) (prevContentRef w1)
                               (timerRef w1) [] (nextTimer w1) (written w1)
                               (unsettled w1) (errors w1))).
  { subst w2. unfold timerExpires. rewrite Ar. cbn. by rewrite Nat.eqb_refl. }
  split; [done|]. split; [done|]. split; [done|]. split; [done|].
  split.
  { intros t' Hne. unfold timerExpires. rewrite Ar. cbn.
    apply Nat.eqb_neq in Hne. by rewrite Hne. }
  split; [by rewrite E2; cbn; rewrite Wr, La|].
  split; [by rewrite E2|].
  split; [by intros H; unfold contentToSave; rewrite H, andb_false_r|].
  split; [by intros H; unfold contentToSave; rewrite H, fileName_given|].
  intros c0 Hprev Hc0 Ht w3.
  assert (Hsnap : prevContentRef w1 = c0) by (by apply burst_takes_snapshot).
  assert (Hst3 : store w3 = setIsPending false (updateFile (fileName p) c0 (store w))).
  { subst w3. rewrite E2. unfold settleWrite, mutate. cbn.
    rewrite Hsnap, Ht. cbn.
    rewrite Hstore, updateFile_setIsPending, setIsPending_twice, updateFile_twice.
    reflexivity. }
  split.
  - rewrite Hst3, contentOf_setIsPending. by eapply contentOf_updateFile.
  - split; [done|]. subst w3. rewrite E2. unfold settleWrite, mutate. cbn.
    rewrite Hsnap, Ht. cbn. by rewrite Wr, Er.
Qed.

End DebouncedSaveProps.

Section DebouncedSaveScenarios.
Import ProjectStore DebouncedFileSave.

(** The theorem for three quick edits of [a.ts], whose saved content is
    [v0]: one request, carrying the third edit; its failure brings [v0]
    back. *)
Lemma burst_issues_one_write_witness :
  let p := mkProps "p1" "a.ts" in
  let s := mkStore (Some (mkProject "p1" "T" [mkFile "a.ts" "v0"; mkFile "b.ts" "x"]
                            (Some "a.ts") [] false)) true in
  let w := mkWorld s "" "" None [] 1 [] 0 [] in
  let w1 := burst p (["v1"; "v2"] ++ ["v3"]) w in
  let w2 := timerExpires p 3 w1 in
  let w3 := settleWrite p false w2 in
  truthy (projectId p) = true /\
  truthy (fileName p) = true /\
  quiet w /\
  armed w1 = [3%nat] /\
  written w1 = [] /\
  written w2 = [mkWrite "p1" "a.ts" "v3"] /\
  armed w2 = [] /\
  contentOf "a.ts" (store w1) = Some "v3" /\
  contentOf "a.ts" (store w3) = Some "v0" /\
  getFiles (store w3) = getFiles s.
Proof.
  intros p s w w1 w2 w3.
  destruct (burst_issues_one_write p eq_refl eq_refl ["v1"; "v2"] "v3" w (or_introl eq_refl))
    as (Ar & Wr & _ & Hs & _ & Hw2 & Ar2 & _ & _ & Hfail).
  destruct (Hfail "v0" eq_refl eq_refl eq_refl) as (Hc & Hs3 & _ & _).
  split; [reflexivity|]. split; [reflexivity|]. split; [left; reflexivity|].
  split; [exact Ar|]. split; [exact Wr|]. split; [exact Hw2|]. split; [exact Ar2|].
  split; [exact (eq_trans (f_equal (contentOf "a.ts") Hs) eq_refl)|].
  split; [exact Hc|].
  exact (eq_trans (f_equal getFiles Hs3) eq_refl).
Defined.

(** C6, as stated, fails in three ways.  The snapshot is still held after
    a successful write, so a later burst whose write fails brings back the
    content from before the earlier burst, not the one from before its own
    first update.  A file whose content was empty before the burst is not
    restored at all.  And for a file named [index.html] the request
    carries the last content without its [tw-built] style block. *)
Lemma snapshot_kept_empty_content_and_stripped_write :
  (let p := mkProps "p1" "a.ts" in
   let s := mkStore (Some (mkProject "p1" "T" [mkFile "a.ts" "v0"] (Some "a.ts") [] false)) true in
   let w := mkWorld s "" "" None [] 1 [] 0 [] in
   let saved := settleWrite p true (timerExpires p 1 (burst p ["v1"] w)) in
   let failed := settleWrite p false (timerExpires p 2 (burst p ["v2"] saved)) in
   written saved = [mkWrite "p1" "a.ts" "v1"] /\
   armed saved = [] /\ unsettled saved = 0%nat /\
   prevContentRef saved = "v0" /\
   contentOf "a.ts" (store saved) = Some "v1" /\
   contentOf "a.ts" (store failed) = Some "v0") /\
  (let p := mkProps "p1" "a.ts" in
   let s := mkStore (Some (mkProject "p1" "T" [mkFile "a.ts" ""] (Some "a.ts") [] false)) true in
   let w := mkWorld s "" "" None [] 1 [] 0 [] in
   let failed := settleWrite p false (timerExpires p 1 (burst p ["x"] w)) in
   contentOf "a.ts" (store w) = Some "" /\
   contentOf "a.ts" (store failed) = Some "x") /\
  (let p := mkProps "p1" "index.html" in
   let page := "<head><style id='tw-built'>.a{}</style></head>" in
   let s := mkStore (Some (mkProject "p1" "T" [mkFile "index.html" "<head></head>"]
                             (Some "index.html") [] false)) true in
   let w := mkWorld s "" "" None [] 1 [] 0 [] in
   written (timerExpires p 1 (burst p [page] w)) =
     [mkWrite "p1" "index.html" "<head></head>"] /\
   page <> "<head></head>").
Proof.
  split; [|split].
  - vm_compute. repeat split.
  - vm_compute. repeat split.
  - split; [vm_compute; reflexivity|discriminate].
Qed.

End DebouncedSaveScenarios.


(** * Further properties of the project store *)
Section StoreActions.
Import ProjectStore Spec Persist.

Lemma perform_keeps_project (a : Action) (s : Store) :
  is_Some (project s) -> is_Some (project (perform a s)).
Proof.
  intros [p Hp]. destruct a; cbn;
    unfold setProject, setId, setMessages, setReady, resetProject, renameProject,
      setIsPending, deleteFile, setActiveFile, setFiles, updateFile, addFile, addMessage;
    rewrite ?Hp; cbn; eauto.
Qed.

(** X1. From the state the store is created with, no sequence of store
    actions leaves the store without a project, and neither does the
    persisted slice of the state reached. *)
Theorem store_always_has_project (fresh : string) (acts : list Action) :
  is_Some (project (performAll acts (initialStore fresh))) /\
  is_Some (project (partialize (performAll acts (initialStore fresh)))).
Proof.
  assert (H : forall s, is_Some (project s) -> is_Some (project (performAll acts s))).
  { induction acts as [|a acts IH]; intros s Hs; [exact Hs|].
    cbn. apply IH. by apply perform_keeps_project. }
  assert (H0 : is_Some (project (performAll acts (initialStore fresh)))).
  { apply H. cbn. eauto. }
  split; [exact H0|]. destruct H0 as [p Hp]. unfold partialize. rewrite Hp. cbn. eauto.
Qed.





Lemma find_map_update (n n' c : string) (fs : list ProjectFile) :
  n' <> n ->
  content <$> List.find (fun f => String.eqb (name f) n')
     (List.map (fun f => if String.eqb (name f) n then mkFile (name f) c else f) fs) =
  content <$> List.find (fun f => String.eqb (name f) n') fs.
Proof.
  intros Hne. induction fs as [|f fs IH]; [done|]. cbn.
  destruct (String.eqb (name f) n) eqn:E; cbn.
  - apply String.eqb_eq in E. rewrite E.
    assert (En : String.eqb n n' = false) by (by apply String.eqb_neq).
    by rewrite En.
  - destruct (String.eqb (name f) n'); [done|exact IH].
Qed.

Lemma map_update_absent (n c : string) (fs : list ProjectFile) :
  hasFile n fs = false ->
  List.map (fun f => if String.eqb (name f) n then mkFile (name f) c else f) fs = fs.
Proof.
  unfold hasFile. induction fs as [|f fs IH]; [done|]. cbn.
  intros [E H]%orb_false_iff. rewrite E. by rewrite IH.
Qed.

(** X3. On a store with a project, [updateFile] keeps the names and the
    order of the files and the selection; the content read for the named
    file is the new one when the collection has a file of that name, the
    content read for any other name is unchanged, and the store is unchanged
    when the collection has no file of that name. *)
Theorem updateFile_touches_one_name (n c : string) (s : Store) (p : Project) :
  project s = Some p ->
  names (getFiles (updateFile n c s)) = names (files p) /\
  selection (updateFile n c s) = activeFile p /\
  (hasFile n (files p) = true -> contentOf n (updateFile n c s) = Some c) /\
  (forall n', n' <> n -> contentOf n' (updateFile n c s) = contentOf n' s) /\
  (hasFile n (files p) = false -> updateFile n c s = s).
Proof.
  intros Hp. unfold updateFile, getFiles, selection, contentOf. rewrite Hp. cbn.
  split.
  { unfold names. rewrite List.map_map. apply List.map_ext.
    intros f. by destruct (String.eqb (name f) n). }
  split; [done|]. split.
  { intros Hhas. apply hasFile_true, find_by_name_in in Hhas as (f & Hf & _).
    assert (Hc : contentOf n s = Some (content f)).
    { unfold contentOf. rewrite Hp. cbn. by rewrite Hf. }
    pose proof (contentOf_updateFile n c _ s Hc) as H.
    unfold contentOf, updateFile in H. rewrite Hp in H. exact H. }
  split; [intros n' Hne; by apply find_map_update|].
  intros Habs. rewrite map_update_absent by done.
  destruct s as [pr r], p. cbn in *. by subst.
Qed.

(** The theorem for a project with two files. *)
Lemma updateFile_touches_one_name_witness :
  let p := mkProject "p1" "T" [mkFile "a.ts" "1"; mkFile "b.ts" "2"] (Some "b.ts") [] false in
  let s := mkStore (Some p) true in
  project s = Some p /\
  contentOf "a.ts" (updateFile "a.ts" "9" s) = Some "9" /\
  contentOf "b.ts" (updateFile "a.ts" "9" s) = Some "2" /\
  updateFile "c.ts" "9" s = s.
Proof.
  intros p s.
  destruct (updateFile_touches_one_name "a.ts" "9" s p eq_refl) as (_ & _ & Hc & Ho & _).
  destruct (updateFile_touches_one_name "c.ts" "9" s p eq_refl) as (_ & _ & _ & _ & Ha).
  split; [reflexivity|]. split; [exact (Hc eq_refl)|].
  split; [exact (Ho "b.ts" ltac:(discriminate))|]. exact (Ha eq_refl).
Defined.

Lemma find_filter_other (n n' : string) (fs : list ProjectFile) :
  n' <> n ->
  List.find (fun f => String.eqb (name f) n')
     (List.filter (fun f => negb (String.eqb (name f) n)) fs) =
  List.find (fun f => String.eqb (name f) n') fs.
Proof.
  intros Hne. induction fs as [|f fs IH]; [done|]. cbn.
  destruct (String.eqb (name f) n) eqn:E; cbn.
  - apply String.eqb_eq in E. rewrite E.
    assert (En : String.eqb n n' = false) by (by apply String.eqb_neq).
    by rewrite En.
  - destruct (String.eqb (name f) n'); [done|exact IH].
Qed.

Lemma filter_absent (n : string) (fs : list ProjectFile) :
  hasFile n fs = false ->
  List.filter (fun f => negb (String.eqb (name f) n)) fs = fs.
Proof.
  unfold hasFile. induction fs as [|f fs IH]; [done|]. cbn.
  intros [E H]%orb_false_iff. rewrite E. cbn. by rewrite IH.
Qed.

Lemma hasFile_filter (n : string) (fs : list ProjectFile) :
  hasFile n (List.filter (fun f => negb (String.eqb (name f) n)) fs) = false.
Proof.
  destruct (hasFile n _) eqn:E; [|done].
  apply hasFile_true, names_filter_ne in E. tauto.
Qed.

(** X4. On a store with a project, [deleteFile] leaves no file of the given
    name, keeps the content read for every other name, does nothing when
    there is no such file and it is not the selection, and deleting the same
    name again changes nothing. *)
Theorem deleteFile_removes_the_name (n : string) (s : Store) (p : Project) :
  project s = Some p ->
  hasFile n (getFiles (deleteFile n s)) = false /\
  (forall n', n' <> n -> contentOf n' (deleteFile n s) = contentOf n' s) /\
  (hasFile n (files p) = false -> activeFile p <> Some n -> deleteFile n s = s) /\
  deleteFile n (deleteFile n s) = deleteFile n s.
Proof.
  intros Hp. split.
  { unfold deleteFile, getFiles. rewrite Hp. cbn. apply hasFile_filter. }
  split.
  { intros n' Hne. unfold deleteFile, contentOf. rewrite Hp. cbn.
    by rewrite find_filter_other. }
  assert (Hnoop : forall s0 p0, project s0 = Some p0 -> hasFile n (files p0) = false ->
                    activeFile p0 <> Some n -> deleteFile n s0 = s0).
  { intros s0 p0 Hp0 Habs Hsel. unfold deleteFile. rewrite Hp0.
    rewrite filter_absent by done.
    assert (Ha : match activeFile p0 with
                 | Some a => if String.eqb a n then firstName (files p0) else Some a
                 | None => None
                 end = activeFile p0).
    { destruct (activeFile p0) as [a|]; [|done].
      destruct (String.eqb a n) eqn:E; [|done].
      apply String.eqb_eq in E. congruence. }
    rewrite Ha. destruct s0 as [pr r], p0. cbn in *. by subst. }
  split; [by apply Hnoop|].
  eapply Hnoop.
  - unfold deleteFile. rewrite Hp. reflexivity.
  - cbn. apply hasFile_filter.
  - cbn. destruct (activeFile p) as [a|]; [|done].
    destruct (String.eqb a n) eqn:E.
    + intros Hf. apply firstName_in, names_filter_ne in Hf. tauto.
    + apply String.eqb_neq in E. congruence.
Qed.

(** The theorem for a project with two files, the first one selected. *)
Lemma deleteFile_removes_the_name_witness :
  let p := mkProject "p1" "T" [mkFile "a.ts" "1"; mkFile "b.ts" "2"] (Some "a.ts") [] false in
  let s := mkStore (Some p) true in
  project s = Some p /\
  hasFile "a.ts" (getFiles (deleteFile "a.ts" s)) = false /\
  contentOf "b.ts" (deleteFile "a.ts" s) = Some "2" /\
  deleteFile "c.ts" s = s.
Proof.
  intros p s.
  destruct (deleteFile_removes_the_name "a.ts" s p eq_refl) as (Hn & Ho & _ & _).
  destruct (deleteFile_removes_the_name "c.ts" s p eq_refl) as (_ & _ & Ha & _).
  split; [reflexivity|]. split; [exact Hn|].
  split; [exact (Ho "b.ts" ltac:(discriminate))|].
  exact (Ha eq_refl ltac:(discriminate)).
Defined.

(** X5. The persisted slice of a store with a project has no file named
    [styles/tw-built.css], reads every other name as the store does, and is
    its own persisted slice; its selection is valid when the selection of
    the store is valid and is not that file. *)
Theorem partialize_drops_built_css (s : Store) (p : Project) :
  project s = Some p ->
  hasFile "styles/tw-built.css" (getFiles (partialize s)) = false /\
  (forall n, n <> "styles/tw-built.css" -> contentOf n (partialize s) = contentOf n s) /\
  partialize (partialize s) = partialize s /\
  selection (partialize s) = activeFile p /\
  (selectionValid p -> activeFile p <> Some "styles/tw-built.css" ->
   storeSelectionValid (partialize s)).
Proof.
  intros Hp.
  assert (E : partialize s =
            mkStore (Some (mkProject (id p) (title p)
                             (List.filter (fun f => negb (String.eqb (name f) "styles/tw-built.css"))
                                          (files p))
                             (activeFile p) (messages p) (isPending p))) (ready s)).
  { unfold partialize. by rewrite Hp. }
  split; [rewrite E; cbn; apply hasFile_filter|].
  split.
  { intros n Hne. rewrite E. unfold contentOf. rewrite Hp. cbn.
    by rewrite find_filter_other. }
  split.
  { rewrite E. unfold partialize. cbn.
    rewrite filter_absent; [done|apply hasFile_filter]. }
  split; [by rewrite E|].
  rewrite E. unfold storeSelectionValid, selectionValid. cbn.
  destruct (activeFile p) as [a|]; [|done].
  intros Hin Hne. apply names_filter_ne. split; [done|congruence].
Qed.

(** The theorem for a project holding the built style sheet. *)
Lemma partialize_drops_built_css_witness :
  let p := mkProject "p1" "T" [mkFile "styles/tw-built.css" "x"; mkFile "a.ts" "1"]
             (Some "a.ts") [] false in
  let s := mkStore (Some p) true in
  project s = Some p /\
  getFiles (partialize s) = [mkFile "a.ts" "1"] /\
  hasFile "styles/tw-built.css" (getFiles (partialize s)) = false /\
  storeSelectionValid (partialize s).
Proof.
  intros p s.
  destruct (partialize_drops_built_css s p eq_refl) as (Hn & _ & _ & _ & Hv).
  split; [reflexivity|]. split; [reflexivity|]. split; [exact Hn|].
  apply Hv; [cbn; tauto|discriminate].
Defined.

(** X6. [applyProjectToStore] on a store with a project puts the files,
    title, identifier and messages of the snapshot in place, selects the
    first file of the snapshot (none when it has no file) whatever was
    selected before, sets [ready] and keeps the pending flag; the selection
    it leaves is valid.  On a store without a project it only sets
    [ready]. *)
Theorem applyProjectToStore_result (np : ProjectLoader.NormalizedProject) (s : Store) :
  match project s with
  | Some p =>
      applyProjectToStore np s =
        mkStore (Some (mkProject (ProjectLoader.norm_id np) (ProjectLoader.norm_title np)
                         (ProjectLoader.norm_files np)
                         (firstName (ProjectLoader.norm_files np))
                         (ProjectLoader.norm_messages np) (isPending p))) true
  | None => applyProjectToStore np s = mkStore None true
  end /\
  storeSelectionValid (applyProjectToStore np s).
Proof.
  destruct s as [[p|] r]; cbn.
  - split; [reflexivity|]. unfold storeSelectionValid, selectionValid. cbn.
    destruct (firstName _) as [a|] eqn:E; [|done]. by apply firstName_in.
  - split; reflexivity.
Qed.

End StoreActions.

(** * Further properties of the run store *)
Section RunStoreMore.
Import RunEvents ProjectLoader RunStore Spec AppController.



Lemma numberedFrom_snoc (k : Z) (ms : list ProjectStore.Message) (m : ProjectStore.Message) :
  numberedFrom k ms ->
  ProjectStore.msg_id m = k + Z.of_nat (length ms) ->
  numberedFrom k (ms ++ [m]).
Proof.
  revert k. induction ms as [|m0 ms IH]; intros k; cbn.
  - intros _ ->. split; [lia|done].
  - intros [H0 Hrest] Hm. split; [done|]. apply IH; [done|]. lia.
Qed.

Lemma pushEvent_keeps_numbering (e : RunEvent) (w : World) :
  numberedFrom 1 (logs (run w)) -> numberedFrom 1 (logs (run (pushEvent e w))).
Proof.
  intros H. destruct e as [[k|] st ts|chunk|t|ok pid pid'|t raw]; cbn; try exact H.
  - apply numberedFrom_snoc; [exact H|]. cbn. lia.
  - destruct (doneInflight w); [exact H|].
    destruct ok as [[|]|]; cbn; try exact H;
      unfold doneAsyncStart; cbn;
      destruct (nullish (runId (run w)) (nullish pid pid')) as [q|]; cbn; try exact H;
      destruct (truthy q); exact H.
Qed.

(** X8. The log of a run stays numbered 1, 2, 3, ... in order under every
    event: a log event appends an entry whose identifier is the new length
    of the log, and no other event touches the log. *)
Theorem run_log_stays_numbered (es : list RunEvent) (w : World) :
  numberedFrom 1 (logs (run w)) ->
  numberedFrom 1 (logs (run (pushEvents es w))) /\
  (forall chunk,
      logs (run (pushEvent (EvLog chunk) w)) =
        logs (run w) ++
          [ProjectStore.mkMessage (Z.of_nat (length (logs (run w))) + 1)
             (default "" chunk) false]).
Proof.
  intros H. split; [|done].
  revert w H. induction es as [|e es IH]; intros w H; [exact H|].
  rewrite pushEvents_cons. apply IH. by apply pushEvent_keeps_numbering.
Qed.

(** The theorem for a fresh run that receives two log events around a
    status event. *)
Lemma run_log_stays_numbered_witness :
  let w := initRun "p1" generate
             (mkWorld (mkRun None false None ∅ [] None) false
                      (ProjectStore.initialStore "x0") [] []) in
  let es := [EvLog (Some "a"); EvStatus (Some "router") Done None; EvLog None] in
  numberedFrom 1 (logs (run w)) /\
  numberedFrom 1 (logs (run (pushEvents es w))) /\
  logs (run (pushEvents es w)) =
    [ProjectStore.mkMessage 1 "a" false; ProjectStore.mkMessage 2 "" false].
Proof.
  intros w es. split; [exact I|].
  split; [exact (proj1 (run_log_stays_numbered es w I))|reflexivity].
Defined.

(** X9. A successful [done] event that finds the guard clear and no project
    identifier to fetch (none in the run store and none in the event, or an
    empty one) starts no fetch: one error is written to the console, the
    guard is clear again at once, the run is marked not running, and the
    mirror is marked ready and not pending. *)
Theorem done_without_project_id (w : World) (ok : option bool) (pid pid' : option string) :
  doneInflight w = false ->
  signalsSuccess ok = true ->
  (forall t, nullish (runId (run w)) (nullish pid pid') = Some t -> truthy t = false) ->
  let w1 := pushEvent (EvDone ok pid pid') w in
  trace w1 = trace w ++ [ConsoleError "Missing projectId in 'done' event"] /\
  fetchCount w1 = fetchCount w /\
  inflight w1 = inflight w /\
  doneInflight w1 = false /\
  running (run w1) = false /\
  store w1 = ProjectStore.setIsPending false (ProjectStore.setReady true (store w)).
Proof.
  intros Hg Hok Hid w1. subst w1. unfold pushEvent. rewrite Hg.
  assert (Hbranch : forall (A : Type) (x y : A),
             match ok with Some false => x | _ => y end = y).
  { intros. by destruct ok as [[]|]. }
  rewrite Hbranch. unfold doneAsyncStart, fetchCount. cbn.
  destruct (nullish (runId (run w)) (nullish pid pid')) as [t|] eqn:E; cbn.
  - rewrite (Hid t eq_refl). cbn. rewrite count_app_one, setIsPending_twice. cbn.
    repeat split; lia.
  - rewrite count_app_one, setIsPending_twice. cbn. repeat split; lia.
Qed.

(** The theorem for a run whose identifier was never set. *)
Lemma done_without_project_id_witness :
  let w := mkWorld (mkRun None true (Some generate) ∅ [] None) false
                   (ProjectStore.initialStore "x0") [] [] in
  let w1 := pushEvent (EvDone (Some true) None (Some "")) w in
  doneInflight w = false /\
  trace w1 = [ConsoleError "Missing projectId in 'done' event"] /\
  inflight w1 = [] /\
  doneInflight w1 = false.
Proof.
  intros w w1.
  assert (Hid : forall t, nullish (runId (run w)) (nullish None (Some "")) = Some t ->
                          truthy t = false).
  { intros t [= <-]. reflexivity. }
  destruct (done_without_project_id w (Some true) None (Some "") eq_refl eq_refl Hid)
    as (Ht & _ & Hi & Hg & _).
  split; [reflexivity|]. split; [exact Ht|]. split; [exact Hi|]. exact Hg.
Defined.

(** X10. A [done] event with [ok] false that finds the guard clear returns
    before the run is marked not running and before the event is recorded:
    [running], [last], the run identifier and the log are as before, the
    mirror is marked ready, and the application keeps showing the run view
    when the run was running. *)
Theorem failed_done_leaves_run_running (w : World) (pid pid' : option string) :
  doneInflight w = false ->
  let w1 := pushEvent (EvDone (Some false) pid pid') w in
  running (run w1) = running (run w) /\
  last (run w1) = last (run w) /\
  runId (run w1) = runId (run w) /\
  steps (run w1) = <["done" := Done]> (steps (run w)) /\
  ProjectStore.ready (store w1) = true /\
  viewOf w1 = (if running (run w) then ViewRun else ViewShell).
Proof.
  intros Hg w1. subst w1. unfold pushEvent. rewrite Hg. cbn.
  assert (Hr : ProjectStore.ready
                 (ProjectStore.addMessage "Pipeline failed to complete." false
                    (ProjectStore.setReady true (store w))) = true).
  { by destruct (store w) as [[p|] r]. }
  unfold viewOf, useAppView. cbn. rewrite Hr. repeat split.
Qed.

(** The theorem for a running run. *)
Lemma failed_done_leaves_run_running_witness :
  let w := mkWorld (mkRun (Some "p1") true (Some generate) ∅ [] None) false
                   (ProjectStore.initialStore "x0") [] [] in
  let w1 := pushEvent (EvDone (Some false) None None) w in
  doneInflight w = false /\
  running (run w1) = true /\
  last (run w1) = None /\
  viewOf w1 = ViewRun.
Proof.
  intros w w1.
  destruct (failed_done_leaves_run_running w None None eq_refl) as (Hr & Hl & _ & _ & _ & Hv).
  split; [reflexivity|]. split; [exact Hr|]. split; [exact Hl|]. exact Hv.
Defined.

(** X11. A successful [done] event that finds the guard clear marks the run
    not running and the mirror ready at once, so the application shows the
    shell view before the snapshot has arrived; the files of the mirror are
    still the old ones until the fetch settles. *)
Theorem successful_done_shows_shell_at_once
    (w : World) (ok : option bool) (pid pid' : option string) :
  doneInflight w = false ->
  signalsSuccess ok = true ->
  let w1 := pushEvent (EvDone ok pid pid') w in
  running (run w1) = false /\
  ProjectStore.ready (store w1) = true /\
  viewOf w1 = ViewShell /\
  last (run w1) = Some (EvDone ok pid pid') /\
  ProjectStore.getFiles (store w1) = ProjectStore.getFiles (store w) /\
  selection (store w1) = selection (store w).
Proof.
  intros Hg Hok w1. subst w1. unfold pushEvent. rewrite Hg.
  assert (Hbranch : forall (A : Type) (x y : A),
             match ok with Some false => x | _ => y end = y).
  { intros. by destruct ok as [[]|]. }
  rewrite Hbranch. unfold doneAsyncStart, viewOf, useAppView. cbn.
  destruct (nullish (runId (run w)) (nullish pid pid')) as [t|]; cbn;
    [destruct (truthy t); cbn|]; destruct (store w) as [[p|] r]; cbn; repeat split.
Qed.

(** The theorem for a running run of a fresh project. *)
Lemma successful_done_shows_shell_at_once_witness :
  let w := mkWorld (mkRun (Some "p1") true (Some generate) ∅ [] None) false
                   (ProjectStore.initialStore "x0") [] [] in
  let w1 := pushEvent (EvDone (Some true) None None) w in
  doneInflight w = false /\
  viewOf w = ViewRun /\
  viewOf w1 = ViewShell /\
  inflight w1 = ["p1"] /\
  ProjectStore.getFiles (store w1) = [].
Proof.
  intros w w1.
  destruct (successful_done_shows_shell_at_once w (Some true) None None eq_refl eq_refl)
    as (_ & _ & Hv & _ & Hf & _).
  split; [reflexivity|]. split; [reflexivity|]. split; [exact Hv|].
  split; [reflexivity|]. exact Hf.
Defined.

End RunStoreMore.

(** * The guard across failures and resets; starting a run *)
Section RunLifecycle.
Import RunStart RunEvents ProjectLoader Spec AppController RunStore.










(** X16. [newProject] always ends in the new-project view with an empty
    project of the given title (by default [New Project]), no run tracked
    and the guard clear; [startGeneration] always ends in the run view with
    an empty project and the run tracked under the given identifier with no
    step and no log.  Both keep the run type. *)
Theorem newProject_and_startGeneration_views
    (fresh rid : string) (t : option string) (w : World) :
  viewOf (newProject fresh t w) = ViewNew /\
  store (newProject fresh t w) =
    ProjectStore.mkStore
      (Some (ProjectStore.mkProject fresh (default "New Project" t) [] None [] false)) false /\
  run (newProject fresh t w) = mkRun None false (runType (run w)) ∅ [] None /\
  doneInflight (newProject fresh t w) = false /\
  viewOf (startGeneration fresh rid w) = ViewRun /\
  run (startGeneration fresh rid w) = mkRun (Some rid) true (runType (run w)) ∅ [] None /\
  ProjectStore.getFiles (store (startGeneration fresh rid w)) = [] /\
  ProjectStore.ready (store (startGeneration fresh rid w)) = false /\
  doneInflight (startGeneration fresh rid w) = false /\
  viewOf (finishGeneration (startGeneration fresh rid w)) = ViewNew.
Proof. repeat split. Qed.

End RunLifecycle.

(** * The step pills *)
Section StepPillProps.
Import RunEvents RunView StepPills.

Lemma activeRule_some (steps : gmap string StepState) (order : list StepKey) :
  order <> [] -> exists a, activeRule steps order = Some a.
Proof.
  intros Hne. unfold activeRule.
  destruct (List.find (isRunning steps) order) as [r|]; [eauto|].
  destruct (List.find _ order) as [d|]; [eauto|].
  destruct order as [|x order]; [done|]. clear Hne.
  revert x. induction order as [|y order IH]; intros x; [cbn; eauto|].
  destruct (IH y) as [a Ha]. exists a. exact Ha.
Qed.

Lemma active_not_done (steps : gmap string StepState) (order : list StepKey) (a : StepKey) :
  active steps order = Some a ->
  (exists k, In k order /\ isDone steps k = false) ->
  In a order /\ isDone steps a = false.
Proof.
  rewrite active_is_rule. unfold activeRule. intros Ha (k & Hk & Hnd).
  destruct (List.find (isRunning steps) order) as [r|] eqn:Er.
  - injection Ha as <-. apply find_some in Er as [Hin Hrun]. split; [done|].
    unfold isRunning, isDone in *. apply bool_decide_eq_true in Hrun.
    apply bool_decide_eq_false. congruence.
  - destruct (List.find (fun step => negb (isDone steps step)) order) as [d|] eqn:Ed.
    + injection Ha as <-. apply find_some in Ed as [Hin Hd]. split; [done|].
      by apply negb_true_iff.
    + exfalso. apply (find_none _ _ Ed) in Hk. rewrite Hnd in Hk. discriminate.
Qed.

Lemma filter_single (q : StepKey -> bool) (a : StepKey) (order : list StepKey) :
  NoDup order -> In a order ->
  List.filter (fun key => bool_decide (Some a = Some key) && q key) order =
    if q a then [a] else [].
Proof.
  induction order as [|x order IH]; [done|].
  intros Hnd Hin. apply NoDup_cons in Hnd as [Hx Hnd]. cbn.
  destruct (decide (a = x)) as [->|Hne].
  - rewrite bool_decide_eq_true_2 by done. cbn.
    assert (Hrest : List.filter (fun key => bool_decide (Some x = Some key) && q key) order = []).
    { clear IH Hin Hnd. induction order as [|y order IH]; [done|]. cbn.
      rewrite bool_decide_eq_false_2.
      - cbn. apply IH. intros H. apply Hx. by apply list_elem_of_further.
      - intros [= ->]. apply Hx. by left. }
    rewrite Hrest. by destruct (q x).
  - rewrite bool_decide_eq_false_2 by congruence. cbn. apply IH; [done|].
    destruct Hin as [->|Hin]; [done|exact Hin].
Qed.

Lemma filter_none (q : StepKey -> bool) (order : list StepKey) :
  (forall k, In k order -> q k = false) ->
  List.filter q order = [].
Proof.
  induction order as [|x order IH]; [done|]. intros H. cbn.
  rewrite (H x (or_introl eq_refl)). apply IH. intros k Hk. apply H. by right.
Qed.

(** X17. Over either step order, the run view draws no pill active when
    every step of the order is done, and otherwise draws exactly one pill
    active: the active step, which is then not done. *)
Theorem one_active_pill_unless_all_done
    (steps : gmap string StepState) (runType : option string) :
  let order := stepOrder runType in
  ((forall k, In k order -> isDone steps k = true) -> activePills steps order = []) /\
  ((exists k, In k order /\ isDone steps k = false) ->
   exists a, activePills steps order = [a] /\
             active steps order = Some a /\
             isDone steps a = false).
Proof.
  intros order. split.
  - intros Hall. apply filter_none. intros k Hk. unfold isActive, readyMap.
    rewrite (Hall k Hk). by rewrite andb_false_r.
  - intros Hsome.
    assert (Hne : order <> []).
    { destruct Hsome as (k & Hk & _). by destruct order. }
    destruct (activeRule_some steps order Hne) as [a Ha].
    rewrite <- active_is_rule in Ha.
    destruct (active_not_done steps order a Ha Hsome) as [Hin Hnd].
    exists a. split; [|done].
    unfold activePills, isActive, readyMap. rewrite Ha.
    assert (Hdup : NoDup order).
    { subst order. unfold stepOrder. destruct runType as [rt|];
        [destruct (String.eqb rt "modify")|]; apply NoDup_ListNoDup;
        repeat constructor; cbn; intuition discriminate. }
    rewrite (filter_single (fun key => negb (isDone steps key)) a order Hdup Hin).
    by rewrite Hnd.
Qed.

(** The theorem for a modification whose planner is done and whose
    implementer runs, and for one whose four steps are done. *)
Lemma one_active_pill_unless_all_done_witness :
  let running := <["planner" := Done]> (<["implement" := Running]> (∅ : gmap string StepState)) in
  let finished :=
    <["planner" := Done]> (<["implement" := Done]> (<["test" := Done]>
      (<["fix" := Done]> (∅ : gmap string StepState)))) in
  activePills running (stepOrder (Some "modify")) = [Implement] /\
  activePills finished (stepOrder (Some "modify")) = [].
Proof.
  intros running finished.
  destruct (one_active_pill_unless_all_done running (Some "modify")) as [_ Hone].
  destruct (one_active_pill_unless_all_done finished (Some "modify")) as [Hnone _].
  split.
  - destruct Hone as (a & Hp & Ha & _).
    + exists Implement. split; [cbn; tauto|reflexivity].
    + rewrite Hp. f_equal. vm_compute in Ha. by injection Ha.
  - apply Hnone. intros k Hk. cbn in Hk.
    destruct Hk as [<-|[<-|[<-|[<-|[]]]]]; reflexivity.
Defined.

End StepPillProps.

(** * Further properties of the save buffer *)
Section SaveBufferMore.
Import ProjectStore DebouncedFileSave.

(** X18. For a hook with a project identifier and a file name, [save]
    followed by [flush] (the explicit save of the editor) issues one PATCH
    request at once, carrying that content, and leaves no timer armed, so no
    later timer expiry issues a second request. *)
Theorem save_then_flush_writes_once (p : Props) (c : string) (w : World) :
  truthy (projectId p) = true ->
  truthy (fileName p) = true ->
  quiet w ->
  let w1 := flush p (save p c w) in
  written w1 = written w ++ [mkWrite (projectId p) (fileName p) (contentToSave p c)] /\
  armed w1 = [] /\
  unsettled w1 = S (unsettled w) /\
  store w1 = setIsPending true (updateFile (fileName p) c (store w)) /\
  (forall t, timerExpires p t w1 = w1).
Proof.
  intros Hp Hf Hq w1.
  destruct (save_rearms p Hp Hf c w Hq) as (Ar & Tr & Nx & La & Wr & Un & Er & Hq').
  assert (Hs : store (save p c w) = updateFile (fileName p) c (store w)).
  { by rewrite save_unfold. }
  assert (E : w1 = mutate p (mkWorld (store (save p c w)) c (prevContentRef (save p c w))
                               (Some (nextTimer w)) [] (S (nextTimer w)) (written w)
                               (unsettled w) (errors w))).
  { subst w1. unfold flush. rewrite Hp, Hf. cbn [negb orb].
    rewrite Tr, Ar, Nx, La, Wr, Un, Er. cbn. by rewrite Nat.eqb_refl. }
  clearbody w1. subst w1. unfold mutate. cbn. rewrite Hs.
  repeat split.
Qed.

(** The theorem for an explicit save of [a.ts]. *)
Lemma save_then_flush_writes_once_witness :
  let p := mkProps "p1" "a.ts" in
  let s := mkStore (Some (mkProject "p1" "T" [mkFile "a.ts" "v0"] (Some "a.ts") [] false)) true in
  let w := mkWorld s "" "" None [] 1 [] 0 [] in
  let w1 := flush p (save p "v1" w) in
  truthy (projectId p) = true /\
  truthy (fileName p) = true /\
  quiet w /\
  written w1 = [mkWrite "p1" "a.ts" "v1"] /\
  armed w1 = [] /\
  timerExpires p 1 w1 = w1.
Proof.
  intros p s w w1.
  destruct (save_then_flush_writes_once p "v1" w eq_refl eq_refl (or_introl eq_refl))
    as (Hw & Ha & _ & _ & Ht).
  split; [reflexivity|]. split; [reflexivity|]. split; [left; reflexivity|].
  split; [exact Hw|]. split; [exact Ha|]. exact (Ht 1%nat).
Defined.

(** X19. A change of key after a burst of updates drops the pending write:
    the timer of the burst is cleared and the refs are emptied, so no timer
    expiry issues a request for the burst, under any key, while its last
    content stays in the mirror. *)
Theorem key_change_drops_pending_write
    (p p' : Props) (cs : list string) (c : string) (w : World) :
  truthy (projectId p) = true ->
  truthy (fileName p) = true ->
  quiet w ->
  let w1 := keyChanged (burst p (cs ++ [c]) w) in
  armed w1 = [] /\
  written w1 = written w /\
  latestContentRef w1 = "" /\
  prevContentRef w1 = "" /\
  store w1 = updateFile (fileName p) c (store w) /\
  (forall t, timerExpires p' t w1 = w1).
Proof.
  intros Hp Hf Hq w1.
  destruct (burst_quiet p Hp Hf cs w Hq) as (Hq1 & Hn1 & Hw1 & Hu1 & He1).
  destruct (save_rearms p Hp Hf c _ Hq1) as (Ar & Tr & Nx & La & Wr & Un & Er & Hq2).
  rewrite <- (burst_snoc p cs c w) in *.
  pose proof (burst_store p Hp Hf cs c w) as Hs.
  assert (Hc : clearTimeout (timerRef (burst p (cs ++ [c]) w)) (armed (burst p (cs ++ [c]) w)) = []).
  { by apply clearTimeout_quiet. }
  subst w1. unfold keyChanged. cbn. rewrite Hc, Wr, Hw1, Hs.
  repeat split.
Qed.

(** The theorem for two edits of [a.ts] followed by a switch to [b.ts]. *)
Lemma key_change_drops_pending_write_witness :
  let p := mkProps "p1" "a.ts" in
  let p' := mkProps "p1" "b.ts" in
  let s := mkStore (Some (mkProject "p1" "T" [mkFile "a.ts" "v0"; mkFile "b.ts" "x"]
                            (Some "a.ts") [] false)) true in
  let w := mkWorld s "" "" None [] 1 [] 0 [] in
  let w1 := keyChanged (burst p (["v1"] ++ ["v2"]) w) in
  truthy (projectId p) = true /\
  truthy (fileName p) = true /\
  quiet w /\
  armed w1 = [] /\
  written w1 = [] /\
  contentOf "a.ts" (store w1) = Some "v2" /\
  timerExpires p' 2 w1 = w1.
Proof.
  intros p p' s w w1.
  destruct (key_change_drops_pending_write p p' ["v1"] "v2" w eq_refl eq_refl
              (or_introl eq_refl)) as (Ha & Hw & _ & _ & Hs & Ht).
  split; [reflexivity|]. split; [reflexivity|]. split; [left; reflexivity|].
  split; [exact Ha|]. split; [exact Hw|].
  split; [exact (eq_trans (f_equal (contentOf "a.ts") Hs) eq_refl)|]. exact (Ht 2%nat).
Defined.

End SaveBufferMore.

(** * Stripping the built style block *)
Section StripTwBuilt.
Import DebouncedFileSave JsString.

Lemma stripTwBuilt_is_replace (s : string) : stripTwBuilt s = replaceTwBuilt s.
Proof. by destruct s. Qed.

Lemma replaceTwBuilt_unfold (s : string) :
  replaceTwBuilt s =
    match matchAt s with
    | Some rest => rest
    | None =>
        match s with
        | String c s' => String c (replaceTwBuilt s')
        | EmptyString => EmptyString
        end
    end.
Proof. by destruct s. Qed.

Lemma first_char_not_lt (c : ascii) :
  Ascii.eqb c "<"%char = false -> Ascii.eqb (lower "<"%char) (lower c) = false.
Proof. destruct c as [[] [] [] [] [] [] [] []]; vm_compute; congruence. Qed.

Lemma ciPrefix_other_head (p s : string) (c : ascii) :
  Ascii.eqb c "<"%char = false -> ciPrefix (String "<"%char p) (String c s) = false.
Proof. intros H. cbn [ciPrefix]. by rewrite (first_char_not_lt c H). Qed.

Lemma matchAt_other_head (c : ascii) (s : string) :
  Ascii.eqb c "<"%char = false -> matchAt (String c s) = None.
Proof. intros H. unfold matchAt. by rewrite ciPrefix_other_head. Qed.

Lemma skip_length (n : nat) (s : string) :
  (String.length (skip n s) <= String.length s)%nat.
Proof.
  revert s. induction n as [|n IH]; intros s; [cbn; lia|].
  destruct s as [|c s]; cbn; [lia|]. specialize (IH s). lia.
Qed.

Lemma afterGt_length (s r : string) :
  afterGt s = Some r -> (String.length r <= String.length s)%nat.
Proof.
  revert r. induction s as [|c s IH]; intros r; cbn; [discriminate|].
  destruct (Ascii.eqb c ">"%char).
  - intros [= ->]. lia.
  - intros H. specialize (IH r H). lia.
Qed.

Lemma afterCloseStyle_length (s r : string) :
  afterCloseStyle s = Some r -> (String.length r <= String.length s)%nat.
Proof.
  revert r. induction s as [|c s IH]; intros r; [discriminate|].
  cbn [afterCloseStyle]. destruct (ciPrefix "</style>" (String c s)).
  - intros [= <-]. exact (skip_length 8 (String c s)).
  - intros H. specialize (IH r H). cbn. lia.
Qed.

Lemma matchAt_length (s r : string) :
  matchAt s = Some r -> (String.length r <= String.length s)%nat.
Proof.
  unfold matchAt. destruct (ciPrefix "<style" s); [|discriminate].
  destruct (tagHasAttr "e"%char (skip 6 s)); [|discriminate].
  destruct (afterGt (skip 6 s)) as [body|] eqn:Eb; [|discriminate].
  intros H. apply afterCloseStyle_length in H. apply afterGt_length in Eb.
  pose proof (skip_length 6 s). lia.
Qed.

(** X20. [stripTwBuilt] never makes a text longer, leaves the empty text
    and every text without the character [<] as they are. *)
Theorem stripTwBuilt_only_removes (s : string) :
  (String.length (stripTwBuilt s) <= String.length s)%nat /\
  (noLt s = true -> stripTwBuilt s = s).
Proof.
  rewrite stripTwBuilt_is_replace. split.
  - induction s as [|c s IH]; [cbn; lia|].
    rewrite replaceTwBuilt_unfold. destruct (matchAt (String c s)) as [r|] eqn:E.
    + by apply matchAt_length.
    + cbn. lia.
  - induction s as [|c s IH]; [done|]. cbn [noLt].
    intros [Hc Hs]%andb_true_iff. apply negb_true_iff in Hc.
    rewrite replaceTwBuilt_unfold, (matchAt_other_head c s Hc). by rewrite IH.
Qed.

(** The theorem for a script without markup. *)
Lemma stripTwBuilt_only_removes_witness :
  noLt "const a = 1;" = true /\ stripTwBuilt "const a = 1;" = "const a = 1;".
Proof.
  split; [reflexivity|].
  exact (proj2 (stripTwBuilt_only_removes "const a = 1;") eq_refl).
Defined.









End StripTwBuilt.

(** * Edits made through the editor *)
Section EditorEdits.
Import ProjectStore DebouncedFileSave Editor.

Lemma last_default_unused (x d1 d2 : string) (l : list string) :
  List.last (x :: l) d1 = List.last (x :: l) d2.
Proof.
  revert x. induction l as [|y l IH]; intros x; [reflexivity|].
  change (List.last (y :: l) d1 = List.last (y :: l) d2). apply IH.
Qed.

Lemma last_change_default (c c1 : string) (cs : list string) :
  List.last (c :: cs) c1 = List.last cs c.
Proof.
  destruct cs as [|d cs]; [reflexivity|].
  change (List.last (d :: cs) c1 = List.last (d :: cs) c). apply last_default_unused.
Qed.

Lemma snoc_of_cons (c1 : string) (cs : list string) :
  exists front, c1 :: cs = front ++ [List.last cs c1] /\ length front = length cs.
Proof.
  revert c1. induction cs as [|c cs IH]; intros c1.
  - exists []. split; reflexivity.
  - destruct (IH c) as (front & E & L). exists (c1 :: front). split.
    + rewrite last_change_default. cbn [app]. by rewrite <- E.
    + cbn. by rewrite L.
Qed.

(** What [onChange] does when the store has a project with a selected
    file. *)
Lemma onChange_unfold (c a : string) (w : World) (pr : Project) :
  project (store w) = Some pr ->
  activeFile pr = Some a ->
  truthy a = true ->
  onChange c w = save (mkProps (id pr) a) c (withStore (updateFile a c) w).
Proof.
  intros Hp Ha Ht. unfold onChange, saveProps. by rewrite Hp, Ha, Ht.
Qed.

(** With a snapshot held, an edit through the editor is a plain update of
    the buffer. *)
Lemma onChange_with_snapshot (c a : string) (w : World) (pr : Project) :
  project (store w) = Some pr ->
  activeFile pr = Some a ->
  truthy a = true ->
  truthy (id pr) = true ->
  truthy (prevContentRef w) = true ->
  onChange c w = save (mkProps (id pr) a) c w.
Proof.
  intros Hp Ha Ht Hi Hs. rewrite (onChange_unfold c a w pr) by done.
  rewrite !save_unfold by done. cbn. by rewrite Hs, updateFile_twice.
Qed.

Lemma save_keeps_project (p : Props) (c : string) (w : World) (pr : Project) :
  truthy (projectId p) = true -> truthy (fileName p) = true ->
  project (store w) = Some pr ->
  exists pr', project (store (save p c w)) = Some pr' /\
              id pr' = id pr /\ activeFile pr' = activeFile pr.
Proof.
  intros Hp Hf Hpr. rewrite save_unfold by done. cbn. unfold updateFile. rewrite Hpr.
  eexists. repeat split.
Qed.

Lemma edits_with_snapshot (cs : list string) (a : string) (w : World) (pr : Project) :
  project (store w) = Some pr ->
  activeFile pr = Some a ->
  truthy a = true ->
  truthy (id pr) = true ->
  truthy (prevContentRef w) = true ->
  edits cs w = burst (mkProps (id pr) a) cs w.
Proof.
  revert w pr. induction cs as [|c cs IH]; intros w pr Hp Ha Ht Hi Hs; [reflexivity|].
  cbn. rewrite (onChange_with_snapshot c a w pr) by done.
  destruct (save_keeps_project (mkProps (id pr) a) c w pr Hi Ht Hp) as (pr' & Hp' & Hid & Hact).
  rewrite (IH _ pr'); [by rewrite Hid|done|congruence|done|congruence|].
  rewrite save_unfold by done. cbn. by rewrite Hs.
Qed.

(** X22. Edits made through the editor reach the buffer after the store
    has taken them, so the snapshot the buffer takes at the first edit of a
    burst is that edit: when the write of the burst fails, the file is left
    with the content of the first edit, not with the content it had before
    the burst.  The one request of the burst carries the last edit. *)
Theorem editor_rollback_restores_first_edit
    (w : World) (pr : Project) (a c1 : string) (cs : list string) :
  project (store w) = Some pr ->
  activeFile pr = Some a ->
  truthy a = true ->
  truthy (id pr) = true ->
  hasFile a (files pr) = true ->
  prevContentRef w = "" ->
  quiet w ->
  truthy c1 = true ->
  let p := mkProps (id pr) a in
  let w1 := edits (c1 :: cs) w in
  let w2 := timerExpires p (nextTimer w + length cs)%nat w1 in
  let w3 := settleWrite p false w2 in
  prevContentRef w1 = c1 /\
  written w2 = written w ++ [mkWrite (id pr) a (contentToSave p (List.last cs c1))] /\
  contentOf a (store w3) = Some c1.
Proof.
  intros Hp Ha Ht Hi Hhas Hprev Hq Hc1 p w1 w2 w3.
  set (w0 := mkWorld (updateFile a c1 (store w)) (latestContentRef w) c1 (timerRef w)
               (armed w) (nextTimer w) (written w) (unsettled w) (errors w)).
  assert (Hfile : exists x, contentOf a (store w) = Some x).
  { apply hasFile_true, find_by_name_in in Hhas as (f & Hf & _).
    exists (content f). unfold contentOf. rewrite Hp. cbn. by rewrite Hf. }
  destruct Hfile as [x Hx].
  assert (E0 : onChange c1 w = save p c1 w0).
  { rewrite (onChange_unfold c1 a w pr) by done. fold p.
    rewrite !save_unfold by done. cbn.
    rewrite Hprev, (contentOf_updateFile a c1 x (store w) Hx). cbn. by rewrite Hc1. }
  assert (Hp0 : exists pr0, project (store w0) = Some pr0 /\ id pr0 = id pr /\
                            activeFile pr0 = Some a).
  { cbn. unfold updateFile. rewrite Hp. eexists. repeat split. done. }
  destruct Hp0 as (pr0 & Hp0 & Hid0 & Ha0).
  assert (E1 : w1 = burst p (c1 :: cs) w0).
  { subst w1. cbn [edits fold_left]. fold (edits cs (onChange c1 w)). rewrite E0.
    destruct (save_keeps_project p c1 w0 pr0 Hi Ht Hp0) as (pr1 & Hp1 & Hid1 & Ha1).
    rewrite (edits_with_snapshot cs a _ pr1); [|done|congruence|done|congruence|].
    - unfold p. by rewrite Hid1, Hid0.
    - rewrite save_unfold by done. cbn. by rewrite Hc1. }
  destruct (snoc_of_cons c1 cs) as (front & Efront & Lfront).
  rewrite Efront in E1. clearbody w1. subst w1.
  set (l := List.last cs c1) in *.
  assert (Hq0 : quiet w0) by exact Hq.
  destruct (burst_quiet p Hi Ht front w0 Hq0) as (Hq1 & Hn1 & Hw1 & Hu1 & He1).
  destruct (save_rearms p Hi Ht l _ Hq1) as (Ar & Tr & Nx & La & Wr & Un & Er & _).
  rewrite <- (burst_snoc p front l w0) in Ar, Tr, Nx, La, Wr, Un, Er.
  assert (Hsnap : prevContentRef (burst p (front ++ [l]) w0) = c1).
  { by rewrite burst_keeps_snapshot. }
  assert (Hstore : store (burst p (front ++ [l]) w0) = updateFile a l (store w)).
  { rewrite (burst_store p Hi Ht front l w0). cbn. apply updateFile_twice. }
  rewrite Hn1, Lfront in Ar. cbn in Ar.
  assert (E2 : w2 = mutate p (mkWorld (updateFile a l (store w)) l c1
                               (timerRef (burst p (front ++ [l]) w0)) []
                               (nextTimer (burst p (front ++ [l]) w0)) (written w)
                               (unsettled (burst p (front ++ [l]) w0))
                               (errors (burst p (front ++ [l]) w0)))).
  { subst w2. unfold timerExpires. rewrite Ar. cbn. rewrite Nat.eqb_refl.
    by rewrite Hstore, La, Hsnap, Wr, Hw1. }
  clearbody w2. subst w2.
  split; [exact Hsnap|]. split; [reflexivity|].
  subst w3. unfold settleWrite, mutate. cbn. rewrite Hc1. cbn.
  rewrite contentOf_setIsPending, updateFile_setIsPending, contentOf_setIsPending,
    updateFile_twice.
  by eapply contentOf_updateFile.
Qed.

(** The theorem for two edits of [a.ts], whose saved content is [v0]. *)
Lemma editor_rollback_restores_first_edit_witness :
  let pr := mkProject "p1" "T" [mkFile "a.ts" "v0"] (Some "a.ts") [] false in
  let w := mkWorld (mkStore (Some pr) true) "" "" None [] 1 [] 0 [] in
  let p := mkProps "p1" "a.ts" in
  let w1 := edits ["v1"; "v2"] w in
  let w3 := settleWrite p false (timerExpires p 2 w1) in
  project (store w) = Some pr /\
  hasFile "a.ts" (files pr) = true /\
  quiet w /\
  contentOf "a.ts" (store w) = Some "v0" /\
  written (timerExpires p 2 w1) = [mkWrite "p1" "a.ts" "v2"] /\
  contentOf "a.ts" (store w3) = Some "v1".
Proof.
  intros pr w p w1 w3.
  destruct (editor_rollback_restores_first_edit w pr "a.ts" "v1" ["v2"]
              eq_refl eq_refl eq_refl eq_refl eq_refl eq_refl (or_introl eq_refl) eq_refl)
    as (_ & Hw & Hc).
  split; [reflexivity|]. split; [reflexivity|]. split; [left; reflexivity|].
  split; [reflexivity|]. split; [exact Hw|exact Hc].
Defined.

End EditorEdits.

(** * Further properties of the optimistic file mutations *)
Section FileMutationsMore.
Import ProjectStore Spec FileMutations.

Lemma setFiles_valid (fs : list ProjectFile) (s : Store) :
  storeSelectionValid (setFiles fs s) \/ project s = None.
Proof.
  destruct (project s) as [p|] eqn:Hp; [left|by right].
  unfold storeSelectionValid. rewrite (setFiles_selection fs s p Hp).
  unfold selectionValid. cbn. unfold findFile.
  destruct (activeFile p) as [a|]; cbn.
  - destruct (List.find _ fs) as [f|] eqn:Ef; cbn.
    + by apply find_by_name_some in Ef as [-> Hin].
    + destruct (firstName fs) as [b|] eqn:Eb; [|done]. by apply firstName_in.
  - destruct (firstName fs) as [b|] eqn:Eb; [|done]. by apply firstName_in.
Qed.

(** X23. Deleting any file of a project through the editor removes every
    file of that name at once, leaves a valid selection, and issues the
    delete request; when that request fails, the whole store is put back as
    it was and the error is shown.  Declining the confirmation does
    nothing. *)
Theorem editor_delete_is_undone_on_failure (n : string) (w : World) (p : Project) :
  project (store w) = Some p ->
  handleDeleteFile n false w = (w, None) /\
  exists w1 c,
    handleDeleteFile n true w = (w1, Some c) /\
    getFiles (store w1) =
      List.filter (fun f => negb (String.eqb (name f) n)) (files p) /\
    storeSelectionValid (store w1) /\
    requests w1 = requests w ++ [DeleteFileRequest (id p) n] /\
    forall message,
      store (deleteFileFailed message c w1) = store w /\
      requests (deleteFileFailed message c w1) = requests w1 /\
      alerts (deleteFileFailed message c w1) = alerts w1 ++ [message].
Proof.
  intros Hp. split; [unfold handleDeleteFile; by rewrite Hp|].
  destruct (delete_rollback_restores_store n w p Hp) as (w1 & c & Hd & Hr & Hs).
  exists w1, c. split; [exact Hd|].
  assert (E : getFiles (store w1) =
                List.filter (fun f => negb (String.eqb (name f) n)) (files p) /\
              storeSelectionValid (store w1)).
  { unfold handleDeleteFile in Hd. rewrite Hp in Hd. cbn in Hd.
    set (fs := List.filter _ (files p)) in *.
    destruct (activeFile p) as [a|] eqn:Ha; [destruct (String.eqb n a)|];
      injection Hd as <- _; cbn.
    - unfold getFiles, storeSelectionValid, selectionValid, setActiveFile, setFiles.
      rewrite Hp. cbn. split; [done|].
      destruct (firstName fs) as [b|] eqn:Eb; [|done]. by apply firstName_in.
    - split.
      + unfold getFiles, setFiles. by rewrite Hp.
      + destruct (setFiles_valid fs (store w)); [done|congruence].
    - split.
      + unfold getFiles, setFiles. by rewrite Hp.
      + destruct (setFiles_valid fs (store w)); [done|congruence]. }
  destruct E as [Ef Ev]. split; [exact Ef|]. split; [exact Ev|]. split; [exact Hr|].
  intros message. split; [apply Hs|]. split; reflexivity.
Qed.

(** The theorem for a project with three files, the second one selected and
    deleted. *)
Lemma editor_delete_is_undone_on_failure_witness :
  let p := mkProject "p1" "T" [mkFile "a.ts" "1"; mkFile "b.ts" "2"; mkFile "c.ts" "3"]
             (Some "b.ts") [] false in
  let w := mkWorld (mkStore (Some p) true) [] [] [] in
  project (store w) = Some p /\
  exists w1 c,
    handleDeleteFile "b.ts" true w = (w1, Some c) /\
    selection (store w1) = Some "a.ts" /\
    store (deleteFileFailed "HTTP 500" c w1) = store w.
Proof.
  intros p w. split; [reflexivity|].
  destruct (editor_delete_is_undone_on_failure "b.ts" w p eq_refl)
    as (_ & w1 & c & Hd & _ & _ & _ & Hf).
  exists w1, c. split; [exact Hd|]. split; [|exact (proj1 (Hf "HTTP 500"))].
  injection Hd as <- _. reflexivity.
Defined.

(** X24. Adding a file under a name that is not empty and not taken
    appends the file with the content [// New file], selects it and issues
    the add request with that content.  When the request fails, the file
    collection is put back as it was; the selection is put back when it was
    a valid, non-empty one (the whole store is then as before), and
    becomes the first file, or none, when nothing was selected. *)
Theorem editor_add_and_its_rollback (newName : string) (w : World) (p : Project) :
  project (store w) = Some p ->
  truthy newName = true ->
  hasFile newName (files p) = false ->
  exists w1 c,
    handleAddFile (Some newName) w = (w1, Some c) /\
    getFiles (store w1) = files p ++ [mkFile newName "// New file"] /\
    selection (store w1) = Some newName /\
    storeSelectionValid (store w1) /\
    requests w1 = requests w ++ [AddFileRequest (id p) newName "// New file"] /\
    forall message,
      let w2 := addFileFailed message c w1 in
      getFiles (store w2) = files p /\
      requests w2 = requests w1 /\
      (activeFile p = None -> selection (store w2) = firstName (files p)) /\
      (forall a, activeFile p = Some a -> truthy a = true -> In a (names (files p)) ->
                 store w2 = store w).
Proof.
  intros Hp Ht Hfree. unfold handleAddFile. rewrite Hp, Ht, Hfree. cbn.
  eexists _, _. split; [reflexivity|]. cbn.
  destruct w as [[pr r] rq al inv]. cbn in *. subst pr.
  destruct p as [i t fs act ms pe]. cbn in *.
  split; [done|]. split; [done|]. split.
  { unfold storeSelectionValid, selectionValid, names. cbn.
    rewrite List.map_app, in_app_iff. cbn. tauto. }
  split; [done|]. intros message. unfold addFileFailed. cbn.
  destruct act as [a|]; cbn.
  - destruct (truthy a && negb (String.eqb a newName)) eqn:E; cbn.
    + repeat split; try done.
    + repeat split; try done. intros a0 [= <-] Hta Hin. exfalso.
      rewrite Hta in E. cbn in E. apply negb_false_iff, String.eqb_eq in E. subst a.
      change (hasFile newName fs = false) in Hfree.
      change (In newName (names fs)) in Hin. apply hasFile_true in Hin. congruence.
  - repeat split; try done.
Qed.

(** The theorem for a project with one file, selected. *)
Lemma editor_add_and_its_rollback_witness :
  let p := mkProject "p1" "T" [mkFile "a.ts" "1"] (Some "a.ts") [] false in
  let w := mkWorld (mkStore (Some p) true) [] [] [] in
  project (store w) = Some p /\
  truthy "b.ts" = true /\
  hasFile "b.ts" (files p) = false /\
  exists w1 c,
    handleAddFile (Some "b.ts") w = (w1, Some c) /\
    getFiles (store w1) = [mkFile "a.ts" "1"; mkFile "b.ts" "// New file"] /\
    selection (store w1) = Some "b.ts" /\
    store (addFileFailed "HTTP 500" c w1) = store w.
Proof.
  intros p w. split; [reflexivity|]. split; [reflexivity|]. split; [reflexivity|].
  destruct (editor_add_and_its_rollback "b.ts" w p eq_refl eq_refl eq_refl)
    as (w1 & c & Ha & Hf & Hs & _ & _ & Hfail).
  exists w1, c. split; [exact Ha|]. split; [exact Hf|]. split; [exact Hs|].
  destruct (Hfail "HTTP 500") as (_ & _ & _ & Hback).
  apply (Hback "a.ts"); [reflexivity|reflexivity|cbn; tauto].
Defined.

Lemma rename_map_names (oldName newName : string) (fs : list ProjectFile) :
  names (List.map (fun f => if String.eqb (name f) oldName
                            then mkFile newName (content f) else f) fs) =
  List.map (fun n => if String.eqb n oldName then newName else n) (names fs).
Proof.
  unfold names. rewrite !List.map_map. apply List.map_ext.
  intros f. by destruct (String.eqb (name f) oldName).
Qed.

Lemma rename_map_absent (oldName newName : string) (fs : list ProjectFile) :
  hasFile oldName fs = false ->
  List.map (fun f => if String.eqb (name f) oldName
                     then mkFile newName (content f) else f) fs = fs.
Proof.
  unfold hasFile. induction fs as [|f fs IH]; [done|]. cbn.
  intros [E H]%orb_false_iff. rewrite E. by rewrite IH.
Qed.

(** X25. A rename to a free name keeps the number, the order and the
    contents of the files and replaces the old name by the new one
    wherever it occurs; afterwards no file has the old name when the two
    names differ, the selection is the new name when it was the old one, and
    a selection that was valid is still valid.  When the request fails, the
    whole store is put back as it was. *)
Theorem rename_keeps_contents_and_is_undone
    (projectId oldName newName : string) (w : World) (p : Project) :
  project (store w) = Some p ->
  hasFile newName (files p) = false ->
  exists w1 c,
    renameFile projectId oldName newName w = (w1, inl c) /\
    names (getFiles (store w1)) =
      List.map (fun n => if String.eqb n oldName then newName else n) (names (files p)) /\
    List.map content (getFiles (store w1)) = List.map content (files p) /\
    (oldName <> newName -> hasFile oldName (getFiles (store w1)) = false) /\
    (hasFile oldName (files p) = false -> getFiles (store w1) = files p) /\
    (selectionValid p -> storeSelectionValid (store w1)) /\
    requests w1 = requests w ++ [RenameFileRequest projectId oldName newName] /\
    store (renameFailed projectId (Some c) w1) = store w /\
    requests (renameFailed projectId (Some c) w1) = requests w1.
Proof.
  intros Hp Hfree. unfold renameFile, onMutate, getProject. rewrite Hp, Hfree.
  set (fs' := List.map (fun f => if String.eqb (name f) oldName
                                 then mkFile newName (content f) else f) (files p)).
  assert (Hnames : names fs' =
            List.map (fun n => if String.eqb n oldName then newName else n) (names (files p)))
    by apply rename_map_names.
  assert (Hfiles : forall s0, project s0 = Some p ->
            getFiles (setFiles fs' s0) = fs').
  { intros s0 H0. unfold getFiles, setFiles. by rewrite H0. }
  destruct w as [[pr r] rq al inv]. cbn in Hp. subst pr.
  eexists _, _. split; [reflexivity|].
  assert (Hg : getFiles (store
            (send (RenameFileRequest projectId oldName newName)
               match activeFile p with
               | Some a =>
                   if String.eqb a oldName
                   then withStore (setActiveFile (Some newName))
                          (withStore (setFiles fs') (mkWorld (mkStore (Some p) r) rq al inv))
                   else withStore (setFiles fs') (mkWorld (mkStore (Some p) r) rq al inv)
               | None => withStore (setFiles fs') (mkWorld (mkStore (Some p) r) rq al inv)
               end)) = fs').
  { destruct (activeFile p) as [a|]; [destruct (String.eqb a oldName)|]; reflexivity. }
  rewrite Hg. split; [exact Hnames|]. split.
  { subst fs'. rewrite List.map_map. apply List.map_ext.
    intros f. by destruct (String.eqb (name f) oldName). }
  split.
  { intros Hne. destruct (hasFile oldName fs') eqn:E; [|done].
    apply hasFile_true in E. rewrite Hnames in E. apply in_map_iff in E as (n0 & E & _).
    destruct (String.eqb n0 oldName) eqn:E0; [congruence|].
    apply String.eqb_neq in E0. congruence. }
  split.
  { intros Habs. subst fs'. by apply rename_map_absent. }
  split.
  { intros Hv. unfold selectionValid in Hv.
    destruct (activeFile p) as [a|] eqn:Ha; cbn.
    - destruct (String.eqb a oldName) eqn:E; cbn.
      + apply String.eqb_eq in E as ->.
        unfold storeSelectionValid, selectionValid. cbn. fold (names fs'). rewrite Hnames.
        apply in_map_iff. exists oldName. by rewrite String.eqb_refl.
      + unfold storeSelectionValid, selectionValid. cbn. rewrite Ha. cbn.
        assert (Hin : In a (names fs')).
        { rewrite Hnames. apply in_map_iff. exists a. by rewrite E. }
        pose proof Hin as Hin'.
        apply find_by_name_in in Hin as (f & Hf & Hn). rewrite Hf. cbn.
        rewrite Hn. exact Hin'.
    - unfold storeSelectionValid, selectionValid. cbn. rewrite Ha. cbn.
      destruct (firstName fs') as [b|] eqn:Eb; [|done]. by apply firstName_in. }
  destruct p as [i t fs [a|] ms pe]; cbn; [destruct (String.eqb a oldName)|];
    repeat split.
Qed.

(** The theorem for renaming the selected file [src/a.ts]. *)
Lemma rename_keeps_contents_and_is_undone_witness :
  let p := mkProject "p1" "T" [mkFile "src/a.ts" "1"; mkFile "b.ts" "2"]
             (Some "src/a.ts") [] false in
  let w := mkWorld (mkStore (Some p) true) [] [] [] in
  project (store w) = Some p /\
  hasFile "src/c.ts" (files p) = false /\
  exists w1 c,
    renameFile "p1" "src/a.ts" "src/c.ts" w = (w1, inl c) /\
    getFiles (store w1) = [mkFile "src/c.ts" "1"; mkFile "b.ts" "2"] /\
    selection (store w1) = Some "src/c.ts" /\
    store (renameFailed "p1" (Some c) w1) = store w.
Proof.
  intros p w. split; [reflexivity|]. split; [reflexivity|].
  destruct (rename_keeps_contents_and_is_undone "p1" "src/a.ts" "src/c.ts" w p eq_refl eq_refl)
    as (w1 & c & Hr & _ & _ & _ & _ & _ & _ & Hback & _).
  exists w1, c. split; [exact Hr|]. split; [|split; [|exact Hback]];
    injection Hr as <- _; reflexivity.
Defined.

End FileMutationsMore.

(** * Renaming from the editor *)
Section EditorRename.
Import ProjectStore Spec FileMutations JsString Editor.










End EditorRename.

(** * Loading a project, deleting a project, and the retry delay *)
Section ProjectListProps.
Import ProjectStore ProjectLoader.

(** X27. Loading a project from the list applies the answer exactly as
    the completion reconciler applies a snapshot: with a project in the
    store, a loaded answer leaves the files, title, identifier and messages
    of the answer, its first file selected, [ready] set and the pending flag
    cleared; a failed request, or an answer without a body, only clears the
    pending flag. *)
Theorem load_project_applies_like_the_reconciler
    (raw : FullProjectResponse) (s : Store) :
  LoadProject.onSuccess (Some raw) s = applyProjectToStore (normalizeProject raw) s /\
  (forall p, project s = Some p ->
     LoadProject.loadProject (LoadProject.Loaded (Some raw)) s =
       mkStore (Some (mkProject (resp_id raw) (resp_title raw)
                        (List.map normalizeFile (default [] (resp_files raw)))
                        (firstName (List.map normalizeFile (default [] (resp_files raw))))
                        (default [] (resp_messages raw)) false)) true) /\
  (forall message,
     LoadProject.loadProject (LoadProject.LoadFailed message) s = setIsPending false s) /\
  LoadProject.loadProject (LoadProject.Loaded None) s = setIsPending false s.
Proof.
  split; [reflexivity|]. split.
  { intros p Hp. destruct s as [pr r]. cbn in Hp. subst pr. reflexivity. }
  split; [intros message|]; unfold LoadProject.loadProject, LoadProject.settle,
    LoadProject.onMutate, LoadProject.onSuccess; apply setIsPending_twice.
Qed.

(** The theorem for an answer with one structured file. *)
Lemma load_project_applies_like_the_reconciler_witness :
  let raw := mkResponse "p2" "Blog"
               (Some [mkRawFile "package.json" (Structured "{}"); mkRawFile "a.ts" Absent])
               None in
  let s := initialStore "x0" in
  LoadProject.loadProject (LoadProject.Loaded (Some raw)) s =
    mkStore (Some (mkProject "p2" "Blog" [mkFile "package.json" "{}"; mkFile "a.ts" ""]
                     (Some "package.json") [] false)) true.
Proof.
  intros raw s.
  exact (proj1 (proj2 (load_project_applies_like_the_reconciler raw s)) _ eq_refl).
Defined.

(** X28. Deleting a project removes every entry with its identifier from
    the cached project list at once (a list that is not cached stays so)
    and sends the deletion; when the request fails, the cached list is put
    back exactly as it was and the project store is untouched; when it
    succeeds, the open project is replaced by an empty project that is not
    ready, whichever project was deleted. *)
Theorem delete_project_list_and_store (projectId fresh : string) (w : ProjectList.World) :
  let w1 := fst (ProjectList.mutate projectId w) in
  let ctx := snd (ProjectList.mutate projectId w) in
  ProjectList.cached w1 =
    List.filter (fun p => negb (String.eqb (ProjectList.item_id p) projectId))
      <$> ProjectList.cached w /\
  (forall l it, ProjectList.cached w1 = Some l -> In it l ->
                ProjectList.item_id it <> projectId) /\
  ProjectList.deletions w1 = ProjectList.deletions w ++ [projectId] /\
  ProjectList.store w1 = ProjectList.store w /\
  ProjectList.cached (ProjectList.onError ctx w1) = ProjectList.cached w /\
  ProjectList.store (ProjectList.onError ctx w1) = ProjectList.store w /\
  ProjectList.store (ProjectList.onSuccess fresh projectId w1) =
    mkStore (Some (mkProject fresh "Undefined Project" [] None [] false)) false /\
  ProjectList.cached (ProjectList.onSuccess fresh projectId w1) = ProjectList.cached w1.
Proof.
  destruct w as [s [l|] d inv]; cbn; repeat split; intros l0 it H Hin; [|discriminate].
  injection H as <-. apply filter_In in Hin as [_ Hne].
  by apply negb_true_iff, String.eqb_neq in Hne.
Qed.

(** X29. The delay before a retry of the project list query starts at one
    second, never decreases with the attempt number, is three seconds from
    the second attempt on and never more. *)
Theorem retry_delay_is_capped (n m : nat) :
  1000 <= ProjectList.retryDelay n <= 3000 /\
  ((n <= m)%nat -> ProjectList.retryDelay n <= ProjectList.retryDelay m) /\
  ((2 <= n)%nat -> ProjectList.retryDelay n = 3000) /\
  ProjectList.retryDelay 0 = 1000 /\
  ProjectList.retryDelay 1 = 2000.
Proof.
  unfold ProjectList.retryDelay.
  assert (Hpow : forall k : nat, 1 <= 2 ^ Z.of_nat k).
  { intros k. pose proof (Z.pow_pos_nonneg 2 (Z.of_nat k)). lia. }
  split; [pose proof (Hpow n); lia|]. split.
  { intros Hle.
    assert (2 ^ Z.of_nat n <= 2 ^ Z.of_nat m) by (apply Z.pow_le_mono_r; lia). lia. }
  split; [|split; reflexivity].
  intros Hn.
  assert (2 ^ 2 <= 2 ^ Z.of_nat n) by (apply Z.pow_le_mono_r; lia).
  change (2 ^ 2) with 4 in *. lia.
Qed.

(** The theorem for the attempts 1 and 3. *)
Lemma retry_delay_is_capped_witness :
  (1 <= 3)%nat /\ (2 <= 3)%nat /\
  ProjectList.retryDelay 1 <= ProjectList.retryDelay 3 /\
  ProjectList.retryDelay 3 = 3000.
Proof.
  split; [lia|]. split; [lia|].
  split.
  - apply (proj1 (proj2 (retry_delay_is_capped 1 3))). lia.
  - apply (proj1 (proj2 (proj2 (retry_delay_is_capped 3 3)))). lia.
Defined.

End ProjectListProps.
